(** * A verification development for [abstract_round_abci/base.py]

    The file embeds the core classes of
    [packages/valory/skills/abstract_round_abci/base.py] in Rocq and proves
    properties of the block-construction state machine ([Period]), of the
    in-memory chain ([Blockchain]), of the payload registry ([_MetaPayload]),
    of the rounds' transaction dispatch ([AbstractRound]), of the immutable
    period state ([BasePeriodState]) and of the consensus parameters
    ([ConsensusParams]).

    Python objects are mutated in place and methods may raise.  Every method
    is therefore a computation in a state-and-exception monad: it takes the
    object it acts on and gives back an outcome (a returned value or a raised
    exception) together with the object as the call leaves it. *)

From Stdlib Require Import ZArith Lia Bool Floats Uint63.
From stdpp Require Import base decidable numbers option list strings gmap fin_maps pretty.

Local Open Scope string_scope.
Local Open Scope list_scope.
Local Open Scope Z_scope.

(** ** Exceptions *)

(** The exception classes the module raises.  [AddBlockError] and
    [TransactionNotValidError] are the module's own subclasses of
    [ValueError]; the others are raised by the interpreter: [AttributeError]
    on a failed attribute read, [KeyError] on a failed dictionary index,
    [TypeError] on a call with an unexpected keyword, [ZeroDivisionError]
    and [OverflowError] by the division of integers. *)
Inductive PyExc : Type :=
| ValueError (msg : string)
| AddBlockError (msg : string)
| TransactionNotValidError (msg : string)
| AttributeError (attr : string)
| KeyError (key : string)
| TypeError (msg : string)
| ZeroDivisionError (msg : string)
| OverflowError (msg : string).

#[global] Instance PyExc_eq_dec : EqDecision PyExc.
Proof. solve_decision. Defined.

(** ** The state-and-exception monad *)

Inductive Outcome (A : Type) : Type :=
| Return (a : A)
| Raise (e : PyExc).
Arguments Return {A} a.
Arguments Raise {A} e.

(** A method of an object of type [S] returning an [A]. *)
Definition Py (S A : Type) : Type := S -> Outcome A * S.

Definition ret {S A} (a : A) : Py S A := fun s => (Return a, s).
Definition raise {S A} (e : PyExc) : Py S A := fun s => (Raise e, s).
Definition get {S} : Py S S := fun s => (Return s, s).
Definition put {S} (s : S) : Py S unit := fun _ => (Return tt, s).
Definition modify {S} (f : S -> S) : Py S unit := fun s => (Return tt, f s).

(** Sequencing: an exception skips the rest, and the mutations done before
    it was raised stay. *)
Definition bind {S A B} (m : Py S A) (k : A -> Py S B) : Py S B :=
  fun s =>
    match m s with
    | (Return a, s') => k a s'
    | (Raise e, s') => (Raise e, s')
    end.

(** [try: ... except cls as exception: handler]. *)
Definition try_except {S A} (m : Py S A) (catches : PyExc -> bool)
    (handler : PyExc -> Py S A) : Py S A :=
  fun s =>
    match m s with
    | (Return a, s') => (Return a, s')
    | (Raise e, s') => if catches e then handler e s' else (Raise e, s')
    end.

(** Run a method of a component (an attribute holding an object) inside a
    method of its owner. *)
Definition on_attr {S T A} (proj : S -> T) (upd : T -> S -> S) (m : Py T A) : Py S A :=
  fun s =>
    match m (proj s) with
    | (r, t') => (r, upd t' s)
    end.

Declare Scope py_scope.
Delimit Scope py_scope with py.
Notation "x <- m ;; k" := (bind m (fun x => k))
  (at level 100, m at next level, right associativity) : py_scope.
Notation "m ;;; k" := (bind m (fun _ => k))
  (at level 100, right associativity) : py_scope.
Local Open Scope py_scope.

(** The calls [f(x)] for the elements [x] of a list, made in order, with
    the list of what they return; the first exception ends the sequence. *)
Fixpoint for_each {S A B} (f : A -> Py S B) (xs : list A) : Py S (list B) :=
  match xs with
  | [] => ret []
  | x :: rest => b <- f x ;; bs <- for_each f rest ;; ret (b :: bs)
  end.

(** ** Python values

    The primitive values that payload fields hold and that decoding gives. *)
Inductive PyVal : Type :=
| VNone
| VBool (b : bool)
| VInt (z : Z)
| VStr (s : string).

#[global] Instance PyVal_eq_dec : EqDecision PyVal.
Proof. solve_decision. Defined.

(** [str(v)] *)
Definition py_str (v : PyVal) : string :=
  match v with
  | VNone => "None"
  | VBool true => "True"
  | VBool false => "False"
  | VInt z => pretty z
  | VStr s => s
  end.

(** Python's [==] on these values: a [bool] is an [int] ([True == 1]), and
    values of unrelated types are unequal. *)
Definition py_eq (a b : PyVal) : bool :=
  match a, b with
  | VNone, VNone => true
  | VBool x, VBool y => Bool.eqb x y
  | VBool x, VInt z | VInt z, VBool x => Z.eqb (Z.b2z x) z
  | VInt x, VInt y => Z.eqb x y
  | VStr x, VStr y => bool_decide (x = y)
  | _, _ => false
  end.

(** [d1 == d2] on dictionaries with string keys: the same keys, bound to
    equal values; the insertion order plays no part. *)
Definition dict_eq (d1 d2 : gmap string PyVal) : bool :=
  bool_decide (map_Forall (fun _ ok => ok = true)
    (merge (fun x y =>
              match x, y with
              | Some a, Some b => Some (py_eq a b)
              | None, None => None
              | _, _ => Some false
              end) d1 d2)).

(** ** Payloads and transactions *)

(** Modelled from the spec: the enumerations of transaction types are
    declared by the applications, outside the sources at hand; the core
    reads of a member its [.value], the tag string that the rounds dispatch
    on, and what [str] gives for it, the key of the registry. *)
Record TransactionType : Type := { value : string; __str__ : string }.

#[global] Instance TransactionType_eq_dec : EqDecision TransactionType.
Proof. solve_decision. Defined.

(** An instance of a concrete subclass of [BaseTxPayload]: the name of that
    subclass, its class attribute [transaction_type], the [sender] set by
    [__init__], and the dictionary that the subclass's [data] property
    returns. *)
Record BaseTxPayload : Type := {
  payload_class : string;
  transaction_type : TransactionType;
  sender : string;
  data : gmap string PyVal;
}.

#[global] Instance BaseTxPayload_eq_dec : EqDecision BaseTxPayload.
Proof. solve_decision. Defined.

(** What an attribute read gives: a primitive value, a dictionary or a
    member of an enumeration. *)
Inductive AttrVal : Type :=
| AVal (v : PyVal)
| ADict (d : gmap string PyVal)
| AEnum (t : TransactionType).

(** [a == b] on what attribute reads give. *)
Definition attr_eq (a b : AttrVal) : bool :=
  match a, b with
  | AVal x, AVal y => py_eq x y
  | ADict x, ADict y => dict_eq x y
  | AEnum x, AEnum y => bool_decide (x = y)
  | _, _ => false
  end.

(** What the right operand of [==] may be, [other] being annotated [Any]: a
    payload, an instance of any other class with its attributes, or a
    primitive value. *)
Inductive PyObject : Type :=
| OPayload (p : BaseTxPayload)
| OInstance (cls : string) (attrs : gmap string AttrVal)
| OValue (v : PyVal).

(** [o.name]: [AttributeError] when [o] has no such attribute. *)
Definition getattr_obj (o : PyObject) (name : string) : Outcome AttrVal :=
  match o with
  | OPayload p =>
      if String.eqb name "sender" then Return (AVal (VStr (sender p)))
      else if String.eqb name "data" then Return (ADict (data p))
      else if String.eqb name "transaction_type" then
        Return (AEnum (transaction_type p))
      else Raise (AttributeError name)
  | OInstance _ attrs =>
      match attrs !! name with
      | Some a => Return a
      | None => Raise (AttributeError name)
      end
  | OValue _ => Raise (AttributeError name)
  end.

(** [BaseTxPayload.__eq__]:
    [return self.sender == other.sender and self.data == other.data].
    [and] evaluates its right operand only when the left one is true. *)
Definition BaseTxPayload_eq (self : BaseTxPayload) (other : PyObject) : Outcome bool :=
  match getattr_obj other "sender" with
  | Raise e => Raise e
  | Return other_sender =>
      if attr_eq (AVal (VStr (sender self))) other_sender then
        match getattr_obj other "data" with
        | Raise e => Raise e
        | Return other_data => Return (attr_eq (ADict (data self)) other_data)
        end
      else Return false
  end.

(** [Transaction]: a payload and the signature over its encoding. *)
Record Transaction : Type := {
  payload : BaseTxPayload;
  signature : string;
}.

#[global] Instance Transaction_eq_dec : EqDecision Transaction.
Proof. solve_decision. Defined.

(** The property [BaseTxPayload.json]:
    [dict(transaction_type=str(self.transaction_type), sender=self.sender,
    **self.data)].  A call that gets a keyword twice, once by name and once
    from the unpacked dictionary, raises [TypeError]. *)
Definition BaseTxPayload_json (self : BaseTxPayload) : Outcome (gmap string PyVal) :=
  if bool_decide (is_Some (data self !! "transaction_type")
                  \/ is_Some (data self !! "sender")) then
    Raise (TypeError "dict() got multiple values for keyword argument")
  else
    Return (<["transaction_type" := VStr (__str__ (transaction_type self))]>
              (<["sender" := VStr (sender self)]> (data self))).

(** What the right operand of [==] on a transaction may be: a transaction
    or anything else. *)
Inductive AnyObject : Type :=
| ATransaction (t : Transaction)
| ANotTransaction (o : PyObject).

(** [Transaction.__eq__]:
    [isinstance(other, Transaction) and self.payload == other.payload
     and self.signature == other.signature]. *)
Definition Transaction_eq (self : Transaction) (other : AnyObject) : Outcome bool :=
  match other with
  | ANotTransaction _ => Return false
  | ATransaction t =>
      match BaseTxPayload_eq (payload self) (OPayload (payload t)) with
      | Raise e => Raise e
      | Return false => Return false
      | Return true => Return (bool_decide (signature self = signature t))
      end
  end.

(** ** Block, Blockchain and BlockBuilder *)

Module custom_types.

(** Modelled from the spec: [Header] is declared in
    [packages.valory.protocols.abci.custom_types], which is not part of the
    sources at hand; the core reads nothing of a header but its integer
    [height]. *)
Record Header : Type := { height : Z }.

#[global] Instance Header_eq_dec : EqDecision Header.
Proof. solve_decision. Defined.

End custom_types.
Export custom_types(Header, Build_Header).

(** [Block]: a header and the tuple of the transactions. *)
Record Block : Type := {
  header : Header;
  transactions : list Transaction;
}.

#[global] Instance Block_eq_dec : EqDecision Block.
Proof. solve_decision. Defined.

(** [Blockchain]: the list [_blocks], oldest first. *)
Record Blockchain : Type := { _blocks : list Block }.

Module Blockchain.

(** [Blockchain.__init__] *)
Definition init : Blockchain := {| _blocks := [] |}.

(** [Blockchain.length]: [len(self._blocks)]. *)
Definition length (self : Blockchain) : Z := Z.of_nat (List.length (_blocks self)).

(** [Blockchain.height]: [self.length + 1]. *)
Definition height (self : Blockchain) : Z := length self + 1.

(** [Blockchain.add_block] *)
Definition add_block (block : Block) : Py Blockchain unit :=
  self <- get ;;
  let expected_height := height self in
  let actual_height := custom_types.height (header block) in
  if negb (Z.eqb expected_height actual_height) then
    raise (AddBlockError
             ("expected height " +:+ pretty expected_height
              +:+ ", got " +:+ pretty actual_height))
  else
    put {| _blocks := _blocks self ++ [block] |}.

End Blockchain.

(** [BlockBuilder]: the header and the transactions of the block under
    construction. *)
Record BlockBuilder : Type := {
  _current_header : option Header;
  _current_transactions : list Transaction;
}.

Module BlockBuilder.

(** [BlockBuilder.reset] *)
Definition reset : Py BlockBuilder unit :=
  put {| _current_header := None; _current_transactions := [] |}.

(** [BlockBuilder.__init__]: [self.reset()]. *)
Definition init : BlockBuilder :=
  {| _current_header := None; _current_transactions := [] |}.

(** The getter of the property [BlockBuilder.header]. *)
Definition header : Py BlockBuilder Header :=
  self <- get ;;
  match _current_header self with
  | None => raise (ValueError "header not set")
  | Some h => ret h
  end.

(** The setter of the property [BlockBuilder.header]. *)
Definition set_header (header : Header) : Py BlockBuilder unit :=
  self <- get ;;
  match _current_header self with
  | Some _ => raise (ValueError "header already set")
  | None =>
      put {| _current_header := Some header;
             _current_transactions := _current_transactions self |}
  end.

(** [BlockBuilder.transactions] *)
Definition transactions (self : BlockBuilder) : list Transaction :=
  _current_transactions self.

(** [BlockBuilder.add_transaction] *)
Definition add_transaction (transaction : Transaction) : Py BlockBuilder unit :=
  modify (fun self =>
    {| _current_header := _current_header self;
       _current_transactions := _current_transactions self ++ [transaction] |}).

(** [BlockBuilder.get_block] *)
Definition get_block : Py BlockBuilder Block :=
  h <- header ;;
  self <- get ;;
  ret (Build_Block h (_current_transactions self)).

End BlockBuilder.

(** ** ConsensusParams *)

(** A finite binary64 number, [mantissa * 2 ^ exponent], the mantissa
    carrying the sign. *)
Record float : Type := { mantissa : Z; exponent : Z }.

(** The integer nearest to [a / b], ties going to the even one, for
    [0 <= a] and [0 < b]. *)
Definition round_half_even (a b : Z) : Z :=
  let q := a / b in
  let r := a mod b in
  if 2 * r <? b then q
  else if b <? 2 * r then q + 1
  else if Z.even q then q else q + 1.

(** [floor (log2 (a / b))] for [0 < a] and [0 < b]. *)
Definition log2_quotient (a b : Z) : Z :=
  let d := Z.log2 a - Z.log2 b in
  let reaches := if 0 <=? d then b * 2 ^ d <=? a else b <=? a * 2 ^ (- d) in
  if reaches then d else d - 1.

(** Python's [a / b] on two [int]s: the binary64 number nearest to the exact
    quotient, ties to even (53 significant bits, and multiples of
    [2 ^ -1074] below the normal range); [OverflowError] when that number is
    not finite, [ZeroDivisionError] when [b] is zero. *)
Definition int_true_divide (a b : Z) : Outcome float :=
  if b =? 0 then Raise (ZeroDivisionError "division by zero")
  else if a =? 0 then Return {| mantissa := 0; exponent := 0 |}
  else
    let sign := Z.sgn a * Z.sgn b in
    let a' := Z.abs a in
    let b' := Z.abs b in
    let e := Z.max (log2_quotient a' b' - 52) (- 1074) in
    let m :=
      if 0 <=? e then round_half_even a' (b' * 2 ^ e)
      else round_half_even (a' * 2 ^ (- e)) b' in
    if 2 ^ 2098 <=? m * 2 ^ (e + 1074) then
      Raise (OverflowError "integer division result too large for a float")
    else Return {| mantissa := sign * m; exponent := e |}.

(** The same quotient as the binary64 division of the machine computes it,
    for operands that convert to floats exactly, and the way a [float] of
    above reads as a binary64 number; they serve to compare
    [int_true_divide] with the arithmetic of the machine. *)
Definition machine_divide (a b : Z) : spec_float :=
  Prim2SF (PrimFloat.div (PrimFloat.of_uint63 (Uint63.of_Z a))
                         (PrimFloat.of_uint63 (Uint63.of_Z b))).

Definition binary64_of (x : float) : spec_float :=
  match mantissa x with
  | Z0 => S754_zero false
  | Zpos m => S754_finite false m (exponent x)
  | Zneg m => S754_finite true m (exponent x)
  end.

(** [math.ceil] on a finite float: the least integer not below it. *)
Definition ceil (x : float) : Z :=
  if 0 <=? exponent x then mantissa x * 2 ^ exponent x
  else - ((- mantissa x) / 2 ^ (- exponent x)).

(** [ConsensusParams]: the attribute [_max_participants]. *)
Record ConsensusParams : Type := { _max_participants : Z }.

(** What [ConsensusParams.from_json] gives: a result or an exception of
    above, or the [AEAEnforceError] that [enforce], of [aea.exceptions],
    raises with the given text when its condition is false. *)
Inductive Enforced (A : Type) : Type :=
| Passed (o : Outcome A)
| AEAEnforceError (exception_text : string).
Arguments Passed {A} o.
Arguments AEAEnforceError {A} exception_text.

Module ConsensusParams.

(** [ConsensusParams.max_participants] *)
Definition max_participants (self : ConsensusParams) : Z := _max_participants self.

(** [ConsensusParams.two_thirds_threshold]:
    [ceil(self.max_participants * 2 / 3)]. *)
Definition two_thirds_threshold (self : ConsensusParams) : Outcome Z :=
  match int_true_divide (max_participants self * 2) 3 with
  | Return x => Return (ceil x)
  | Raise e => Raise e
  end.

(** [ConsensusParams.from_json].  [isinstance(x, int)] holds of integers and
    of booleans, [bool] being a subclass of [int], with [True] and [False]
    counting as 1 and 0 in comparisons and in arithmetic. *)
Definition from_json (obj : gmap string PyVal) : Enforced ConsensusParams :=
  match obj !! "max_participants" with
  | None => Passed (Raise (KeyError "max_participants"))
  | Some max_participants =>
      let as_int : option Z :=
        match max_participants with
        | VInt z => Some z
        | VBool b => Some (Z.b2z b)
        | _ => None
        end in
      match as_int with
      | Some z =>
          if 0 <=? z then Passed (Return {| _max_participants := z |})
          else AEAEnforceError "max_participants must be an integer greater than 0."
      | None => AEAEnforceError "max_participants must be an integer greater than 0."
      end
  end.

End ConsensusParams.

(** The exact integer ceiling of [a / b], for [0 < b]. *)
Definition ceil_div (a b : Z) : Z := - ((- a) / b).

(** ** AbstractRound *)

(** The interface a concrete round class implements.  [R] is the type of the
    round objects (of all the round classes of an application), [Res] the
    type of the results the rounds end with.

    - [getattr_checker self name] is [getattr(self, name, None)] for the name
      of a checker, which the source annotates
      [Callable[[BaseTxPayload], bool]]: a predicate on the round as it is.
    - [getattr_handler self name] is [getattr(self, name, None)] for the name
      of a handler, annotated [Callable[[BaseTxPayload], None]]: a method
      that may mutate the round and may raise.
    - [end_block] is the abstract method: [None] while the round goes on,
      otherwise the result and the next round (or [None] for no next
      round). *)
Class AbstractRound (R Res : Type) : Type := {
  round_id : R -> string;
  getattr_checker : R -> string -> option (BaseTxPayload -> bool);
  getattr_handler : R -> string -> option (BaseTxPayload -> Py R unit);
  end_block : R -> option (Res * option R);
}.

Module AbstractRound.
Section Methods.
Context {R Res : Type} `{!AbstractRound R Res}.

(** [AbstractRound.check_transaction] *)
Definition check_transaction (self : R) (transaction : Transaction) : bool :=
  let tx_type := value (transaction_type (payload transaction)) in
  match getattr_checker self ("check_" +:+ tx_type) with
  | None => false
  | Some payload_handler => payload_handler (payload transaction)
  end.

(** [AbstractRound.process_transaction] *)
Definition process_transaction (transaction : Transaction) : Py R unit :=
  self <- get ;;
  let tx_type := value (transaction_type (payload transaction)) in
  match getattr_handler self tx_type with
  | None => raise (ValueError "request not recognized")
  | Some handler =>
      if negb (check_transaction self transaction) then
        raise (TransactionNotValidError "transaction not valid")
      else handler (payload transaction)
  end.

(** The abstract method [AbstractRound.end_block], as the round class
    implements it. *)
Definition end_block (self : R) : option (Res * option R) := end_block self.

End Methods.
End AbstractRound.

(** ** Period *)

(** [Period._BlockConstructionState] *)
Inductive _BlockConstructionState : Type :=
| WAITING_FOR_BEGIN_BLOCK
| WAITING_FOR_DELIVER_TX
| WAITING_FOR_COMMIT.

#[global] Instance _BlockConstructionState_eq_dec : EqDecision _BlockConstructionState.
Proof. solve_decision. Defined.

(** The attributes of a [Period].  [Args] is the type of the arguments of
    the constructor of the starting round class. *)
Record Period (R Res Args : Type) : Type := {
  _blockchain : Blockchain;
  _block_construction_phase : _BlockConstructionState;
  _block_builder : BlockBuilder;
  _starting_round_cls : Args -> R;
  _current_round : option R;
  _previous_rounds : list R;
  _round_results : list Res;
}.
Arguments _blockchain {R Res Args} _.
Arguments _block_construction_phase {R Res Args} _.
Arguments _block_builder {R Res Args} _.
Arguments _starting_round_cls {R Res Args} _.
Arguments _current_round {R Res Args} _.
Arguments _previous_rounds {R Res Args} _.
Arguments _round_results {R Res Args} _.

Module Period.
Section Methods.
Context {R Res Args : Type} `{!AbstractRound R Res}.

Abbreviation Period := (Period R Res Args).

(** Assignments to the attributes. *)
Definition set_blockchain (c : Blockchain) (self : Period) : Period :=
  {| _blockchain := c;
     _block_construction_phase := _block_construction_phase self;
     _block_builder := _block_builder self;
     _starting_round_cls := _starting_round_cls self;
     _current_round := _current_round self;
     _previous_rounds := _previous_rounds self;
     _round_results := _round_results self |}.

Definition set_block_construction_phase (ph : _BlockConstructionState)
    (self : Period) : Period :=
  {| _blockchain := _blockchain self;
     _block_construction_phase := ph;
     _block_builder := _block_builder self;
     _starting_round_cls := _starting_round_cls self;
     _current_round := _current_round self;
     _previous_rounds := _previous_rounds self;
     _round_results := _round_results self |}.

Definition set_block_builder (b : BlockBuilder) (self : Period) : Period :=
  {| _blockchain := _blockchain self;
     _block_construction_phase := _block_construction_phase self;
     _block_builder := b;
     _starting_round_cls := _starting_round_cls self;
     _current_round := _current_round self;
     _previous_rounds := _previous_rounds self;
     _round_results := _round_results self |}.

Definition set_current_round (r : option R) (self : Period) : Period :=
  {| _blockchain := _blockchain self;
     _block_construction_phase := _block_construction_phase self;
     _block_builder := _block_builder self;
     _starting_round_cls := _starting_round_cls self;
     _current_round := r;
     _previous_rounds := _previous_rounds self;
     _round_results := _round_results self |}.

Definition set_previous_rounds (rs : list R) (self : Period) : Period :=
  {| _blockchain := _blockchain self;
     _block_construction_phase := _block_construction_phase self;
     _block_builder := _block_builder self;
     _starting_round_cls := _starting_round_cls self;
     _current_round := _current_round self;
     _previous_rounds := rs;
     _round_results := _round_results self |}.

Definition set_round_results (rs : list Res) (self : Period) : Period :=
  {| _blockchain := _blockchain self;
     _block_construction_phase := _block_construction_phase self;
     _block_builder := _block_builder self;
     _starting_round_cls := _starting_round_cls self;
     _current_round := _current_round self;
     _previous_rounds := _previous_rounds self;
     _round_results := rs |}.

(** [Period.__init__] *)
Definition init (starting_round_cls : Args -> R) : Period :=
  {| _blockchain := Blockchain.init;
     _block_construction_phase := WAITING_FOR_BEGIN_BLOCK;
     _block_builder := BlockBuilder.init;
     _starting_round_cls := starting_round_cls;
     _current_round := None;
     _previous_rounds := [];
     _round_results := [] |}.

(** [Period.setup] *)
Definition setup (args : Args) : Py Period unit :=
  self <- get ;;
  modify (set_current_round (Some (_starting_round_cls self args))).

(** [Period.is_finished] *)
Definition is_finished (self : Period) : bool :=
  match _current_round self with
  | None => true
  | Some _ => false
  end.

(** The property [Period.current_round]. *)
Definition current_round : Py Period R :=
  self <- get ;;
  match _current_round self with
  | None => raise (ValueError "current_round not set!")
  | Some r => ret r
  end.

(** A call [round.method(...)] on the round object [round] that the period
    refers to: the object is mutated in place.  The period holds its rounds
    by value here: the call changes [_current_round], and an entry of
    [_previous_rounds] that is the same object as the current round (a round
    that its own [end_block] gave as its successor) is kept as the round was
    when it ended. *)
Definition call_on_round {A} (round : R) (method : Py R A) : Py Period A :=
  on_attr (fun _ => round) (fun r' => set_current_round (Some r')) method.

(** [Period.begin_block] *)
Definition begin_block (header : Header) : Py Period unit :=
  self <- get ;;
  if is_finished self then
    raise (ValueError "period is finished, cannot accept new blocks")
  else if negb (bool_decide (_block_construction_phase self = WAITING_FOR_BEGIN_BLOCK)) then
    raise (ValueError "cannot accept a 'begin_block' request.")
  else
    modify (set_block_construction_phase WAITING_FOR_DELIVER_TX) ;;;
    on_attr _block_builder set_block_builder BlockBuilder.reset ;;;
    on_attr _block_builder set_block_builder (BlockBuilder.set_header header).

(** [Period.deliver_tx].  [cast] does nothing at run time: calling
    [check_transaction] on [None] raises [AttributeError]. *)
Definition deliver_tx (transaction : Transaction) : Py Period bool :=
  self <- get ;;
  if negb (bool_decide (_block_construction_phase self = WAITING_FOR_DELIVER_TX)) then
    raise (ValueError "cannot accept a 'deliver_tx' request.")
  else
    is_valid <-
      match _current_round self with
      | None => raise (AttributeError "check_transaction")
      | Some r => ret (AbstractRound.check_transaction r transaction)
      end ;;
    (if is_valid : bool then
       round <- current_round ;;
       call_on_round round (AbstractRound.process_transaction transaction) ;;;
       on_attr _block_builder set_block_builder
         (BlockBuilder.add_transaction transaction)
     else ret tt) ;;;
    ret is_valid.

(** [Period.end_block] *)
Definition end_block : Py Period unit :=
  self <- get ;;
  if negb (bool_decide (_block_construction_phase self = WAITING_FOR_DELIVER_TX)) then
    raise (ValueError "cannot accept a 'end_block' request.")
  else
    modify (set_block_construction_phase WAITING_FOR_COMMIT).

(** [Period._update_round] *)
Definition _update_round : Py Period unit :=
  current_round <- current_round ;;
  match AbstractRound.end_block current_round with
  | None => ret tt
  | Some (round_result, next_round) =>
      modify (fun self => set_previous_rounds (_previous_rounds self ++ [current_round]) self) ;;;
      modify (fun self => set_round_results (_round_results self ++ [round_result]) self) ;;;
      modify (set_current_round next_round)
  end.

(** [isinstance(e, AddBlockError)] *)
Definition is_AddBlockError (e : PyExc) : bool :=
  match e with
  | AddBlockError _ => true
  | _ => false
  end.

(** [Period.commit] *)
Definition commit : Py Period unit :=
  self <- get ;;
  if negb (bool_decide (_block_construction_phase self = WAITING_FOR_COMMIT)) then
    raise (ValueError "cannot accept a 'commit' request.")
  else
    block <- on_attr _block_builder set_block_builder BlockBuilder.get_block ;;
    try_except
      (on_attr _blockchain set_blockchain (Blockchain.add_block block) ;;;
       _update_round ;;;
       modify (set_block_construction_phase WAITING_FOR_BEGIN_BLOCK))
      is_AddBlockError
      (fun exception => raise exception).

(** [Period.check_is_finished] *)
Definition check_is_finished : Py Period unit :=
  self <- get ;;
  if is_finished self then
    raise (ValueError "period is finished, cannot accept new transactions")
  else ret tt.

(** [Period.current_round_id]; a round object is true as a condition. *)
Definition current_round_id (self : Period) : option string :=
  match _current_round self with
  | Some r => Some (round_id r)
  | None => None
  end.

(** [Period.latest_result] *)
Definition latest_result (self : Period) : option Res :=
  if Nat.eqb (List.length (_round_results self)) 0 then None
  else last (_round_results self).

End Methods.
End Period.

(** The four entry points that the consensus engine drives a period
    through, the phase in which each is accepted, and the error with which
    each answers in another phase. *)
Inductive EntryPoint : Type :=
| BEGIN_BLOCK
| DELIVER_TX
| END_BLOCK
| COMMIT.

#[global] Instance EntryPoint_eq_dec : EqDecision EntryPoint.
Proof. solve_decision. Defined.

Definition matching_phase (ep : EntryPoint) : _BlockConstructionState :=
  match ep with
  | BEGIN_BLOCK => WAITING_FOR_BEGIN_BLOCK
  | DELIVER_TX => WAITING_FOR_DELIVER_TX
  | END_BLOCK => WAITING_FOR_DELIVER_TX
  | COMMIT => WAITING_FOR_COMMIT
  end.

Definition phase_mismatch (ep : EntryPoint) : PyExc :=
  match ep with
  | BEGIN_BLOCK => ValueError "cannot accept a 'begin_block' request."
  | DELIVER_TX => ValueError "cannot accept a 'deliver_tx' request."
  | END_BLOCK => ValueError "cannot accept a 'end_block' request."
  | COMMIT => ValueError "cannot accept a 'commit' request."
  end.

(** The error of [begin_block] on a finished period. *)
Definition period_finished : PyExc :=
  ValueError "period is finished, cannot accept new blocks".

(** The twelve combinations of an entry point and a phase. *)
Definition combinations : list (EntryPoint * _BlockConstructionState) :=
  ep ← [BEGIN_BLOCK; DELIVER_TX; END_BLOCK; COMMIT];
  ph ← [WAITING_FOR_BEGIN_BLOCK; WAITING_FOR_DELIVER_TX; WAITING_FOR_COMMIT];
  [(ep, ph)].

Section PeriodHistories.
Context {R Res Args : Type} `{!AbstractRound R Res}.

(** A call of an entry point, with the header or the transaction that it
    takes; the value it returns is dropped. *)
Definition call (ep : EntryPoint) (header : Header) (transaction : Transaction)
    : Py (Period R Res Args) unit :=
  match ep with
  | BEGIN_BLOCK => Period.begin_block header
  | DELIVER_TX => Period.deliver_tx transaction ;;; ret tt
  | END_BLOCK => Period.end_block
  | COMMIT => Period.commit
  end.

(** The periods that a program can hold: a new [Period], and what [setup]
    and the entry points make of one, whether they return or raise. *)
Inductive reachable : Period R Res Args -> Prop :=
| reachable_init starting_round_cls :
    reachable (Period.init starting_round_cls)
| reachable_setup p args :
    reachable p -> reachable (Period.setup args p).2
| reachable_call p ep header transaction :
    reachable p -> reachable (call ep header transaction p).2.

(** The invariant of these periods: a block is under construction only
    while there is a current round. *)
Definition round_while_in_block (p : Period R Res Args) : Prop :=
  _block_construction_phase p = WAITING_FOR_BEGIN_BLOCK \/
  is_Some (_current_round p).

(** Another invariant of these periods: a block is under construction
    only while the builder has its header. *)
Definition header_while_in_block (p : Period R Res Args) : Prop :=
  _block_construction_phase p = WAITING_FOR_BEGIN_BLOCK \/
  is_Some (_current_header (_block_builder p)).

End PeriodHistories.

(** The transactions of [txs] whose delivery returned true, [verdicts]
    being what the deliveries returned, in order. *)
Definition kept (txs : list Transaction) (verdicts : list bool) : list Transaction :=
  (filter (fun tb : Transaction * bool => tb.2 = true) (zip txs verdicts)).*1.

(** ** The payload registry: _MetaPayload *)

(** What a class may bind [transaction_type] to. *)
Inductive TagValue : Type :=
| TagVal (v : PyVal)
| TagEnum (t : TransactionType).

#[global] Instance TagValue_eq_dec : EqDecision TagValue.
Proof. solve_decision. Defined.

(** [str(x)] on these. *)
Definition tag_str (x : TagValue) : string :=
  match x with
  | TagVal v => py_str v
  | TagEnum t => __str__ t
  end.

(** A class object as [super().__new__] returns it: its identity, its name
    and module, the names of its direct bases and of the classes of its
    method resolution order, and the class attributes that a lookup on it
    finds (its own and the inherited ones). *)
Record PyClass : Type := {
  class_id : positive;
  __name__ : string;
  __module__ : string;
  __bases__ : list string;
  __mro__ : list string;
  class_attrs : gmap string TagValue;
}.

#[global] Instance PyClass_eq_dec : EqDecision PyClass.
Proof. solve_decision. Defined.

(** [hasattr(cls, name)] *)
Definition hasattr (cls : PyClass) (name : string) : bool :=
  bool_decide (is_Some (class_attrs cls !! name)).

(** [getattr(cls, name)] with no default. *)
Definition getattr (cls : PyClass) (name : string) : Outcome TagValue :=
  match class_attrs cls !! name with
  | Some v => Return v
  | None => Raise (AttributeError name)
  end.

(** [issubclass(cls, BaseTxPayload)] *)
Definition issubclass_BaseTxPayload (cls : PyClass) : bool :=
  bool_decide ("BaseTxPayload" ∈ __mro__ cls).

(** [str(cls)] as the f-strings print a class. *)
Definition class_str (cls : PyClass) : string :=
  "<class '" +:+ __module__ cls +:+ "." +:+ __name__ cls +:+ "'>".

Module _MetaPayload.

(** The class attribute [transaction_type_to_payload_cls] is the state that
    the methods of the metaclass act on. *)
Abbreviation Registry := (gmap string PyClass).

(** [_MetaPayload._validate_transaction_type] *)
Definition _validate_transaction_type (transaction_type : string)
    (new_payload_cls : PyClass) : Py Registry unit :=
  transaction_type_to_payload_cls <- get ;;
  match transaction_type_to_payload_cls !! transaction_type with
  | Some previous_payload_cls =>
      if negb (bool_decide (new_payload_cls = previous_payload_cls)) then
        raise (ValueError
                 ("transaction type with name " +:+ transaction_type
                  +:+ " already used by class " +:+ class_str previous_payload_cls
                  +:+ ", and cannot be used by class " +:+ class_str new_payload_cls))
      else ret tt
  | None => ret tt
  end.

(** [_MetaPayload._get_field].  The guard is
    [not hasattr(cls, field_name) and getattr(cls, field_name) is None]:
    its right operand is evaluated only when the attribute is missing, and
    then the read itself raises. *)
Definition _get_field (cls : PyClass) (field_name : string) : Outcome TagValue :=
  let guard : Outcome bool :=
    if negb (hasattr cls field_name) then
      match getattr cls field_name with
      | Return v => Return (bool_decide (v = TagVal VNone))
      | Raise e => Raise e
      end
    else Return false in
  match guard with
  | Raise e => Raise e
  | Return true =>
      Raise (ValueError
               ("class " +:+ class_str cls +:+ " must set '" +:+ field_name
                +:+ "' class field"))
  | Return false => getattr cls field_name
  end.

(** [_MetaPayload.__new__], from the class object [new_cls] that
    [super().__new__] has made. *)
Definition __new__ (new_cls : PyClass) : Py Registry PyClass :=
  if String.prefix "packages." (__module__ new_cls) then ret new_cls
  else if bool_decide ("ABC" ∈ __bases__ new_cls) then ret new_cls
  else if negb (issubclass_BaseTxPayload new_cls) then
    raise (ValueError
             ("class " +:+ __name__ new_cls +:+ " must inherit from BaseTxPayload"))
  else
    match _get_field new_cls "transaction_type" with
    | Raise e => raise e
    | Return field =>
        let transaction_type := tag_str field in
        _validate_transaction_type transaction_type new_cls ;;;
        modify (fun reg : Registry => <[transaction_type := new_cls]> reg) ;;;
        ret new_cls
    end.

(** [BaseTxPayload.from_json], up to the call of the class it has found:
    the result is that class and the keyword arguments of the call. *)
Definition from_json (obj : gmap string PyVal) : Py Registry (PyClass * gmap string PyVal) :=
  match obj !! "transaction_type" with
  | None => raise (KeyError "transaction_type")
  | Some v =>
      let data := delete "transaction_type" obj in
      let transaction_type := py_str v in
      transaction_type_to_payload_cls <- get ;;
      match transaction_type_to_payload_cls !! transaction_type with
      | None => raise (KeyError transaction_type)
      | Some payload_cls => ret (payload_cls, data)
      end
  end.

End _MetaPayload.

(** ** BasePeriodState *)

(** What a field of a period state holds: [None], a frozen set of
    addresses, or a primitive value. *)
Inductive FieldVal : Type :=
| FNone
| FFrozenSet (xs : gset string)
| FVal (v : PyVal).

#[global] Instance FieldVal_eq_dec : EqDecision FieldVal.
Proof. solve_decision. Defined.

(** A class of period states, [BasePeriodState] or a subclass: its name and
    the keyword parameters of its [__init__], which, as
    [BasePeriodState.__init__] does, gives each of them the default [None]
    and stores it in the attribute of the same name with a leading
    underscore. *)
Record StateClass : Type := {
  state_class_name : string;
  init_params : list string;
}.

#[global] Instance StateClass_eq_dec : EqDecision StateClass.
Proof. solve_decision. Defined.

(** The class [BasePeriodState] itself. *)
Definition BasePeriodState_class : StateClass :=
  {| state_class_name := "BasePeriodState"; init_params := ["participants"] |}.

(** A period state object: [type(self)] and [self.__dict__], the attributes
    in the order of their first assignment. *)
Record BasePeriodState : Type := {
  type_ : StateClass;
  __dict__ : list (string * FieldVal);
}.

#[global] Instance BasePeriodState_eq_dec : EqDecision BasePeriodState.
Proof. solve_decision. Defined.

(** The objects live in a store; a variable or an attribute holds a
    reference. *)
Abbreviation ref := positive.
Abbreviation Store := (gmap positive BasePeriodState).

(** [key[1:]] *)
Definition drop_first (key : string) : string :=
  match key with
  | EmptyString => EmptyString
  | String _ rest => rest
  end.

(** [d.get(key)] on a list of items. *)
Fixpoint items_get (items : list (string * FieldVal)) (key : string) : option FieldVal :=
  match items with
  | [] => None
  | (k, v) :: rest => if String.eqb k key then Some v else items_get rest key
  end.

(** The dictionary comprehension of [update], [{key[1:]: value for ...}],
    run on the items [items] from the dictionary [d0] on: a later item
    replaces an earlier one under the same shortened key. *)
Definition copied_from (items : list (string * FieldVal))
    (d0 : gmap string FieldVal) : gmap string FieldVal :=
  fold_left (fun d '(key, value) => <[drop_first key := value]> d) items d0.

Module BasePeriodState.

(** The call of the class [cls] with the keywords [kwargs]: a keyword that is not a parameter of
    [__init__] is a [TypeError]; otherwise a new object is made, [__init__]
    assigns its attributes, and the reference to it is the result. *)
Definition new (cls : StateClass) (kwargs : gmap string FieldVal) : Py Store ref :=
  if negb (bool_decide (map_Forall (fun k _ => k ∈ init_params cls) kwargs)) then
    raise (TypeError "__init__() got an unexpected keyword argument")
  else
    store <- get ;;
    let self := fresh (dom store) in
    let attrs :=
      (fun p => ("_" +:+ p, default FNone (kwargs !! p))) <$> init_params cls in
    put (<[self := {| type_ := cls; __dict__ := attrs |}]> store) ;;;
    ret self.

(** [self._<name>], as the properties of the class and of its subclasses
    read the fields. *)
Definition field (x : BasePeriodState) (name : string) : option FieldVal :=
  items_get (__dict__ x) ("_" +:+ name).

(** The property [BasePeriodState.participants]. *)
Definition participants (self : ref) : Py Store FieldVal :=
  store <- get ;;
  match store !! self with
  | None => raise (AttributeError "_participants")
  | Some x =>
      match field x "participants" with
      | None => raise (AttributeError "_participants")
      | Some FNone => raise (ValueError "'participants' field is None")
      | Some v => ret v
      end
  end.

(** [BasePeriodState.update].  The comprehension builds the new dictionary
    [data] from the items of [self.__dict__] in their order;
    [data.update(kwargs)] then lets the keywords replace the copied
    entries.  (A reference always denotes an object of the store; the first
    branch only makes the function total.) *)
Definition update (self : ref) (kwargs : gmap string FieldVal) : Py Store ref :=
  store <- get ;;
  match store !! self with
  | None => raise (AttributeError "__dict__")
  | Some x =>
      let data := copied_from (__dict__ x) ∅ in
      let data := kwargs ∪ data in
      new (type_ x) data
  end.

End BasePeriodState.

(** ** Histories *)

(** [appended n c]: the chain [c] is what [n] successful calls of
    [add_block] make of a new [Blockchain()]. *)
Inductive appended : nat -> Blockchain -> Prop :=
| appended_O : appended O Blockchain.init
| appended_S n c b c' :
    appended n c ->
    Blockchain.add_block b c = (Return tt, c') ->
    appended (S n) c'.

(** The heights of the blocks of a chain, oldest first. *)
Definition heights (c : Blockchain) : list Z :=
  (fun b => custom_types.height (header b)) <$> _blocks c.

(** A class that [_MetaPayload.__new__] goes on to register: its module is
    not under [packages.], [ABC] is not among its direct bases, and it
    inherits from [BaseTxPayload]. *)
Definition registered_on_definition (cls : PyClass) : Prop :=
  String.prefix "packages." (__module__ cls) = false /\
("ABC" ∉ __bases__ cls) /\
  ("BaseTxPayload" ∈ __mro__ cls).

(** A concrete payload class: a subclass of [BaseTxPayload] that is not
    marked abstract. *)
Definition concrete_payload_class (cls : PyClass) : Prop :=
("ABC" ∉ __bases__ cls) /\ ("BaseTxPayload" ∈ __mro__ cls).

(** An object that the constructor of its class has made, whatever has been
    assigned to its attributes since: the attributes are those that
    [__init__] assigns, in that order.  (Python accepts no parameter name
    twice.) *)
Definition constructed (x : BasePeriodState) : Prop :=
  NoDup (init_params (type_ x)) /\
  (__dict__ x).*1 = (fun p => "_" +:+ p) <$> init_params (type_ x).

(** ** Examples *)

Module Examples.

(** Two payload classes of an application outside [packages.], bound to the
    same tag, and one defined under [packages.] that declares no tag. *)
Definition RegistrationPayload : PyClass :=
  {| class_id := 1;
     __name__ := "RegistrationPayload";
     __module__ := "app.payloads";
     __bases__ := ["BaseTxPayload"];
     __mro__ := ["RegistrationPayload"; "BaseTxPayload"; "ABC"; "object"];
     class_attrs := {[ "transaction_type" := TagVal (VStr "registration") ]} |}.

Definition OtherPayload : PyClass :=
  {| class_id := 2;
     __name__ := "OtherPayload";
     __module__ := "app.payloads";
     __bases__ := ["BaseTxPayload"];
     __mro__ := ["OtherPayload"; "BaseTxPayload"; "ABC"; "object"];
     class_attrs := {[ "transaction_type" := TagVal (VStr "registration") ]} |}.

Definition UntaggedPayload : PyClass :=
  {| class_id := 3;
     __name__ := "UntaggedPayload";
     __module__ := "app.payloads";
     __bases__ := ["BaseTxPayload"];
     __mro__ := ["UntaggedPayload"; "BaseTxPayload"; "ABC"; "object"];
     class_attrs := ∅ |}.

Definition PackagedUntaggedPayload : PyClass :=
  {| class_id := 4;
     __name__ := "UntaggedPayload";
     __module__ := "packages.valory.skills.safe_deployment_abci.payloads";
     __bases__ := ["BaseTxPayload"];
     __mro__ := ["UntaggedPayload"; "BaseTxPayload"; "ABC"; "object"];
     class_attrs := ∅ |}.

(** Payload instances of two classes with the same sender and data. *)
Definition registration_of (address : string) : BaseTxPayload :=
  {| payload_class := "RegistrationPayload";
     transaction_type := {| value := "registration"; __str__ := "registration" |};
     sender := address;
     data := ∅ |}.

Definition ping_of (address : string) : BaseTxPayload :=
  {| payload_class := "PingPayload";
     transaction_type := {| value := "ping"; __str__ := "ping" |};
     sender := address;
     data := ∅ |}.

Definition tx_registration (address : string) : Transaction :=
  {| payload := registration_of address; signature := "sig" |}.

Definition tx_ping (address : string) : Transaction :=
  {| payload := ping_of address; signature := "sig" |}.

(** A round class of an application.  [RegistrationRound] collects the
    addresses that register: it has the methods [check_registration] and
    [registration], and a method [check_ping] with no method [ping] beside
    it.  It ends once two addresses have registered, with their number as
    the result and [FinalRound] next; [FinalRound] has no handlers and ends
    the period. *)
Inductive ExampleRound : Type :=
| RegistrationRound (registered : list string)
| FinalRound.

#[global] Instance ExampleRound_AbstractRound : AbstractRound ExampleRound Z := {|
  round_id r :=
    match r with
    | RegistrationRound _ => "registration"
    | FinalRound => "final"
    end;
  getattr_checker r name :=
    match r with
    | RegistrationRound registered =>
        if String.eqb name "check_registration" then
          Some (fun p => negb (bool_decide (sender p ∈ registered)))
        else if String.eqb name "check_ping" then Some (fun _ => true)
        else None
    | FinalRound => None
    end;
  getattr_handler r name :=
    match r with
    | RegistrationRound _ =>
        if String.eqb name "registration" then
          Some (fun p =>
                  modify (fun self =>
                            match self with
                            | RegistrationRound registered =>
                                RegistrationRound (registered ++ [sender p])
                            | FinalRound => FinalRound
                            end))
        else None
    | FinalRound => None
    end;
  end_block r :=
    match r with
    | RegistrationRound registered =>
        if (2 <=? Z.of_nat (length registered))%Z then
          Some (Z.of_nat (length registered), Some FinalRound)
        else None
    | FinalRound => Some (0, None)
    end
|}.

(** A period of that application, set up and with a block begun. *)
Definition new_period : Period ExampleRound Z (list string) :=
  Period.init RegistrationRound.

Definition period_in_block : Period ExampleRound Z (list string) :=
  (Period.begin_block (Build_Header 1) (Period.setup [] new_period).2).2.

(** A store with one [BasePeriodState]. *)
Definition one_state : Store :=
  {[ 1%positive :=
       {| type_ := BasePeriodState_class;
          __dict__ := [("_participants", FFrozenSet {[ "alice"; "bob" ]})] |} ]}.

End Examples.

(* ================================================================== *)
(** * Properties *)

(** ** Blockchain *)

Lemma add_block_ok (c : Blockchain) (b : Block) :
  custom_types.height (header b) = Blockchain.height c ->
  Blockchain.add_block b c = (Return tt, {| _blocks := _blocks c ++ [b] |}).
Proof.
  intros Hh. unfold Blockchain.add_block, bind, get, put, raise.
  rewrite Hh, Z.eqb_refl. reflexivity.
Qed.

Lemma add_block_error (c : Blockchain) (b : Block) :
  custom_types.height (header b) <> Blockchain.height c ->
  Blockchain.add_block b c =
    (Raise (AddBlockError
              ("expected height " +:+ pretty (Blockchain.height c)
               +:+ ", got " +:+ pretty (custom_types.height (header b)))), c).
Proof.
  intros Hh. unfold Blockchain.add_block, bind, get, put, raise.
  destruct (Z.eqb_spec (Blockchain.height c) (custom_types.height (header b)));
    [congruence | reflexivity].
Qed.

Lemma add_block_inv (c c' : Blockchain) (b : Block) :
  Blockchain.add_block b c = (Return tt, c') ->
  custom_types.height (header b) = Blockchain.height c /\
  c' = {| _blocks := _blocks c ++ [b] |}.
Proof.
  intros H.
  destruct (decide (custom_types.height (header b) = Blockchain.height c)) as [Heq|Hne].
  - rewrite (add_block_ok _ _ Heq) in H. split; [done | congruence].
  - rewrite (add_block_error _ _ Hne) in H. discriminate.
Qed.

Lemma appended_heights (n : nat) (c : Blockchain) :
  appended n c ->
  Blockchain.length c = Z.of_nat n /\ heights c = Z.of_nat <$> seq 1 n.
Proof.
  induction 1 as [|n c b c' _ [IHlen IHhs] Hadd].
  - split; reflexivity.
  - apply add_block_inv in Hadd as [Hh ->].
    unfold Blockchain.height in Hh. unfold Blockchain.length, heights in *.
    cbn [_blocks]. rewrite length_app, fmap_app, IHhs, seq_S, fmap_app.
    cbn [length fmap list_fmap]. split; [lia|].
    do 2 f_equal. rewrite Hh. lia.
Qed.

(** C4. For every blockchain the height is the length plus one; [add_block]
    raises [AddBlockError] and leaves the chain as it was unless the height
    in the header of the block is the height of the chain, and otherwise
    appends the block; so after [n] successful appends the length is [n],
    the height is [n + 1], and the heights of the blocks are 1, 2, ..., n. *)
Theorem Blockchain_add_block_heights :
  (forall c : Blockchain, Blockchain.height c = Blockchain.length c + 1) /\
  (forall (c : Blockchain) (b : Block),
      custom_types.height (header b) <> Blockchain.height c ->
      exists msg, Blockchain.add_block b c = (Raise (AddBlockError msg), c)) /\
  (forall (c : Blockchain) (b : Block),
      custom_types.height (header b) = Blockchain.height c ->
      Blockchain.add_block b c = (Return tt, {| _blocks := _blocks c ++ [b] |})) /\
  (forall (n : nat) (c : Blockchain),
      appended n c ->
      Blockchain.length c = Z.of_nat n /\
      Blockchain.height c = Z.of_nat n + 1 /\
      heights c = Z.of_nat <$> seq 1 n).
Proof.
  split; [reflexivity|]. split; [|split].
  - intros c b Hne. eexists. apply add_block_error, Hne.
  - apply add_block_ok.
  - intros n c Happ. destruct (appended_heights n c Happ) as [Hlen Hhs].
    unfold Blockchain.height. rewrite Hlen. done.
Qed.

Lemma Blockchain_add_block_heights_witness :
  let b1 := Build_Block (Build_Header 1) [] in
  let b2 := Build_Block (Build_Header 2) [] in
  let c1 := {| _blocks := [b1] |} in
  let c2 := {| _blocks := [b1; b2] |} in
  (exists msg, Blockchain.add_block b1 c1 = (Raise (AddBlockError msg), c1)) /\
  Blockchain.add_block b2 c1 = (Return tt, c2) /\
  Blockchain.length c2 = 2 /\ Blockchain.height c2 = 3 /\ heights c2 = [1; 2].
Proof.
  intros b1 b2 c1 c2.
  destruct Blockchain_add_block_heights as (_ & Herr & Hok & Hn).
  assert (H1 : Blockchain.add_block b1 Blockchain.init = (Return tt, c1))
    by (apply (Hok Blockchain.init b1); reflexivity).
  assert (H2 : Blockchain.add_block b2 c1 = (Return tt, c2))
    by (apply (Hok c1 b2); reflexivity).
  split; [apply (Herr c1 b1); discriminate|].
  split; [exact H2|].
  apply (Hn 2%nat c2).
  exact (appended_S _ _ _ _ (appended_S _ _ _ _ appended_O H1) H2).
Defined.

(** ** ConsensusParams *)

Lemma round_half_even_3 (a : Z) :
  0 <= a -> -1 <= 3 * round_half_even a 3 - a <= 1.
Proof.
  intros Ha. unfold round_half_even.
  pose proof (Z.div_mod a 3 ltac:(lia)) as Hdm.
  pose proof (Z.mod_pos_bound a 3 ltac:(lia)) as Hr.
  destruct (Z.ltb_spec (2 * (a mod 3)) 3); [lia|].
  destruct (Z.ltb_spec 3 (2 * (a mod 3))); [lia|lia].
Qed.

Lemma ceil_of_scaled (a m P : Z) :
  0 <= a -> 2 <= P -> -1 <= 3 * m - a * P <= 1 ->
  - ((- m) / P) = ceil_div a 3.
Proof.
  intros Ha HP Hm. unfold ceil_div.
  pose proof (Z.div_mod (- a) 3 ltac:(lia)) as Hdm.
  pose proof (Z.mod_pos_bound (- a) 3 ltac:(lia)) as Hr.
  set (c := (- a) / 3) in *.
  f_equal. symmetry. apply (Z.div_unique_pos (- m) P c (- m - P * c)); [|lia].
  nia.
Qed.

Lemma log2_quotient_3_small (a : Z) :
  0 < a < 3 * 2 ^ 52 -> log2_quotient a 3 <= 51.
Proof.
  intros [Ha0 Ha]. unfold log2_quotient.
  change (Z.log2 3) with 1.
  assert (Hlog : Z.log2 a < 54).
  { apply Z.log2_lt_pow2; [lia|]. change (2 ^ 54) with 18014398509481984. lia. }
  destruct (Z.leb_spec 0 (Z.log2 a - 1)) as [Hd|Hd]; [|
    destruct (3 <=? a * 2 ^ (- (Z.log2 a - 1))); lia].
  destruct (Z.leb_spec (3 * 2 ^ (Z.log2 a - 1)) a) as [Hle|Hgt]; [|lia].
  destruct (decide (Z.log2 a - 1 = 52)) as [E|]; [|lia].
  rewrite E in Hle. lia.
Qed.

(** [int_true_divide] gives what the machine gives, on a sample of
    numerators that floats hold exactly: small ones, ones whose quotient by
    three lies halfway or not between two floats, and the ones around
    [2 ^ 52] thirds. *)
Lemma int_true_divide_as_machine :
  Forall (fun a => Return (machine_divide a 3)
                   = match int_true_divide a 3 with
                     | Return x => Return (binary64_of x)
                     | Raise e => Raise e
                     end)
    [0; 1; 2; 3; 4; 7; 10; 14; 9007199254740991; 9007199254740992;
     13510798882111488; 13510798882111490; 13510798882111492;
     13510798882111494; 18014398509481984; 36028797018963964].
Proof. repeat constructor. Qed.

(** The threshold on the first eight numbers of participants. *)
Lemma two_thirds_threshold_table :
  (fun n => ConsensusParams.two_thirds_threshold {| _max_participants := n |})
    <$> [0; 1; 2; 3; 4; 5; 6; 7]
  = Return <$> [0; 1; 2; 2; 3; 4; 4; 5].
Proof. vm_compute. reflexivity. Qed.

(** The threshold is the exact integer ceiling of two thirds as long as the
    quotient stays below [2 ^ 52], where consecutive floats are at most one
    half apart. *)
Lemma two_thirds_threshold_exact (n : Z) :
  0 <= n < 3 * 2 ^ 51 ->
  ConsensusParams.two_thirds_threshold {| _max_participants := n |}
  = Return (ceil_div (2 * n) 3).
Proof.
  intros [Hn0 Hn].
  unfold ConsensusParams.two_thirds_threshold, ConsensusParams.max_participants.
  cbn [_max_participants]. unfold int_true_divide.
  change (3 =? 0) with false. cbv iota.
  destruct (Z.eqb_spec (n * 2) 0) as [E|E].
  { replace n with 0 by lia. reflexivity. }
  assert (Ha : 0 < n * 2 < 3 * 2 ^ 52).
  { change (2 ^ 52) with (2 * 2 ^ 51). lia. }
  rewrite (Z.abs_eq (n * 2)) by lia. change (Z.abs 3) with 3.
  rewrite (Z.sgn_pos (n * 2)) by lia. change (Z.sgn 3) with 1.
  pose proof (log2_quotient_3_small (n * 2) Ha) as Hk.
  set (e := Z.max (log2_quotient (n * 2) 3 - 52) (- 1074)).
  assert (He : - 1074 <= e <= - 1) by (unfold e; lia).
  destruct (Z.leb_spec 0 e) as [|_]; [lia|].
  set (P := 2 ^ (- e)).
  assert (HP : 2 <= P).
  { unfold P. change 2 with (2 ^ 1) at 1. apply Z.pow_le_mono_r; lia. }
  pose proof (round_half_even_3 (n * 2 * P) ltac:(nia)) as Hm.
  set (m := round_half_even (n * 2 * P) 3) in *.
  assert (Hscale : P * 2 ^ (e + 1074) = 2 ^ 1074).
  { unfold P. rewrite <- Z.pow_add_r by lia. f_equal. lia. }
  assert (Hfin : m * 2 ^ (e + 1074) < 2 ^ 2098).
  { assert (0 < 2 ^ (e + 1074)) by (apply Z.pow_pos_nonneg; lia).
    assert (m <= n * 2 * P) by nia.
    assert (m * 2 ^ (e + 1074) <= n * 2 * 2 ^ 1074) by nia.
    assert (3 * 2 ^ 52 * 2 ^ 1074 < 2 ^ 2098) by (vm_compute; reflexivity).
    assert (0 < 2 ^ 1074) by (apply Z.pow_pos_nonneg; lia).
    nia. }
  destruct (Z.leb_spec (2 ^ 2098) (m * 2 ^ (e + 1074))) as [|_]; [lia|].
  unfold ceil. cbn [mantissa exponent].
  destruct (Z.leb_spec 0 e) as [|_]; [lia|].
  f_equal. rewrite Z.mul_1_l. fold P.
  replace (2 * n) with (n * 2) by lia.
  apply ceil_of_scaled; lia.
Qed.

(** C6. At 6755399441055746 participants the threshold that the code
    computes is 4503599627370497, one less than the ceiling of two thirds,
    4503599627370498: the quotient is a float, and floats of that size are
    whole numbers. *)
Theorem two_thirds_threshold_large :
  ConsensusParams.two_thirds_threshold {| _max_participants := 6755399441055746 |}
    = Return 4503599627370497 /\
  ceil_div (2 * 6755399441055746) 3 = 4503599627370498.
Proof. split; vm_compute; reflexivity. Qed.

(** ** The payload registry *)

Section Registry.
Import _MetaPayload.

Lemma validate_other (reg : Registry) (tag : string) (new_cls prev : PyClass) :
  reg !! tag = Some prev -> new_cls <> prev ->
  _validate_transaction_type tag new_cls reg =
    (Raise (ValueError
              ("transaction type with name " +:+ tag
               +:+ " already used by class " +:+ class_str prev
               +:+ ", and cannot be used by class " +:+ class_str new_cls)), reg).
Proof.
  intros Hprev Hne. unfold _validate_transaction_type, bind, get, raise.
  rewrite Hprev, bool_decide_eq_false_2 by done. reflexivity.
Qed.

Lemma validate_same (reg : Registry) (tag : string) (cls : PyClass) :
  reg !! tag = Some cls ->
  _validate_transaction_type tag cls reg = (Return tt, reg).
Proof.
  intros Hprev. unfold _validate_transaction_type, bind, get, ret.
  rewrite Hprev, bool_decide_eq_true_2 by done. reflexivity.
Qed.

Lemma validate_free (reg : Registry) (tag : string) (cls : PyClass) :
  reg !! tag = None ->
  _validate_transaction_type tag cls reg = (Return tt, reg).
Proof.
  intros Hprev. unfold _validate_transaction_type, bind, get, ret.
  rewrite Hprev. reflexivity.
Qed.

Lemma get_field_present (cls : PyClass) (name : string) (v : TagValue) :
  class_attrs cls !! name = Some v -> _get_field cls name = Return v.
Proof.
  intros Hv. unfold _get_field, hasattr, getattr. rewrite Hv.
  rewrite bool_decide_eq_true_2 by eauto. reflexivity.
Qed.

Lemma get_field_missing (cls : PyClass) (name : string) :
  class_attrs cls !! name = None ->
  _get_field cls name = Raise (AttributeError name).
Proof.
  intros Hv. unfold _get_field, hasattr, getattr. rewrite Hv.
  rewrite bool_decide_eq_false_2 by (intros [? ?]; discriminate). reflexivity.
Qed.

(** The [ValueError] of [_get_field] is dead code: a class that binds the
    field to [None] gets [None] back. *)
Lemma get_field_never_ValueError (cls : PyClass) (name msg : string) :
  _get_field cls name <> Raise (ValueError msg).
Proof.
  destruct (class_attrs cls !! name) as [v|] eqn:Hv.
  - rewrite (get_field_present _ _ _ Hv). discriminate.
  - rewrite (get_field_missing _ _ Hv). discriminate.
Qed.

Lemma new_registers (reg : Registry) (cls : PyClass) (v : TagValue) :
  registered_on_definition cls ->
  class_attrs cls !! "transaction_type" = Some v ->
  __new__ cls reg =
    match _validate_transaction_type (tag_str v) cls reg with
    | (Return _, _) => (Return cls, <[tag_str v := cls]> reg)
    | (Raise e, _) => (Raise e, reg)
    end.
Proof.
  intros (Hmod & Habc & Hsub) Hv. unfold __new__, issubclass_BaseTxPayload.
  rewrite Hmod, bool_decide_eq_false_2, bool_decide_eq_true_2 by done.
  cbn [negb]. rewrite (get_field_present _ _ _ Hv).
  unfold bind at 1.
  destruct (reg !! tag_str v) as [prev|] eqn:Hprev.
  - destruct (decide (cls = prev)) as [->|Hne].
    + rewrite (validate_same _ _ _ Hprev). reflexivity.
    + rewrite (validate_other _ _ _ _ Hprev Hne). reflexivity.
  - rewrite (validate_free _ _ _ Hprev). reflexivity.
Qed.

(** C7, the claim as it stands fails: a schema defined a second time, with
    the name, the module, the bases and the tag of the first definition, is
    a new class object; registering it under the tag that the first
    definition is bound to raises the error of the duplicate tag, it does
    not succeed. *)
Lemma redefined_schema_is_a_duplicate :
  let first := Examples.RegistrationPayload in
  let again :=
    {| class_id := 8;
       __name__ := __name__ first;
       __module__ := __module__ first;
       __bases__ := __bases__ first;
       __mro__ := __mro__ first;
       class_attrs := class_attrs first |} in
  let reg := (__new__ first ∅).2 in
  __new__ first ∅ = (Return first, {[ "registration" := first ]}) /\
  __new__ again reg
  = (Raise (ValueError
              ("transaction type with name registration already used by class "
               +:+ "<class 'app.payloads.RegistrationPayload'>"
               +:+ ", and cannot be used by class "
               +:+ "<class 'app.payloads.RegistrationPayload'>")), reg).
Proof. split; reflexivity. Qed.

(** C7, amended. Registering a class under a tag that the registry binds to
    another class object raises the [ValueError] of the duplicate tag and
    leaves the registry as it was; a schema defined again is such another
    class object, having an identity of its own.  Validating a tag against
    the very class object that it is bound to succeeds and changes nothing,
    and binding the tag to that class again writes the entry that is there,
    so that the registry is as it was.  Looking up a tag that is not bound
    raises [KeyError]. *)
Theorem registry_duplicate_idempotent_unknown :
  (forall (reg : Registry) (cls prev : PyClass) (v : TagValue),
      registered_on_definition cls ->
      class_attrs cls !! "transaction_type" = Some v ->
      reg !! tag_str v = Some prev -> cls <> prev ->
      _validate_transaction_type (tag_str v) cls reg =
        (Raise (ValueError
                  ("transaction type with name " +:+ tag_str v
                   +:+ " already used by class " +:+ class_str prev
                   +:+ ", and cannot be used by class " +:+ class_str cls)), reg) /\
      __new__ cls reg =
        (Raise (ValueError
                  ("transaction type with name " +:+ tag_str v
                   +:+ " already used by class " +:+ class_str prev
                   +:+ ", and cannot be used by class " +:+ class_str cls)), reg)) /\
  (forall (reg : Registry) (cls prev : PyClass) (v : TagValue),
      registered_on_definition cls ->
      class_attrs cls !! "transaction_type" = Some v ->
      reg !! tag_str v = Some prev ->
      class_id cls <> class_id prev ->
      exists msg, __new__ cls reg = (Raise (ValueError msg), reg)) /\
  (forall (reg : Registry) (tag : string) (cls : PyClass),
      reg !! tag = Some cls ->
      _validate_transaction_type tag cls reg = (Return tt, reg) /\
      <[tag := cls]> reg = reg) /\
  (forall (reg : Registry) (obj : gmap string PyVal) (v : PyVal),
      obj !! "transaction_type" = Some v ->
      reg !! py_str v = None ->
      from_json obj reg = (Raise (KeyError (py_str v)), reg)).
Proof.
  assert (Hdup : forall (reg : Registry) (cls prev : PyClass) (v : TagValue),
             registered_on_definition cls ->
             class_attrs cls !! "transaction_type" = Some v ->
             reg !! tag_str v = Some prev -> cls <> prev ->
             __new__ cls reg =
               (Raise (ValueError
                         ("transaction type with name " +:+ tag_str v
                          +:+ " already used by class " +:+ class_str prev
                          +:+ ", and cannot be used by class " +:+ class_str cls)),
                reg)).
  { intros reg cls prev v Hreg Hv Hprev Hne.
    rewrite (new_registers _ _ _ Hreg Hv), (validate_other _ _ _ _ Hprev Hne).
    reflexivity. }
  split; [|split; [|split]].
  - intros reg cls prev v Hreg Hv Hprev Hne.
    split; [apply (validate_other _ _ _ _ Hprev Hne)|apply Hdup; assumption].
  - intros reg cls prev v Hreg Hv Hprev Hid. eexists.
    apply (Hdup reg cls prev v Hreg Hv Hprev). intros ->. apply Hid. reflexivity.
  - intros reg tag cls Hprev.
    split; [apply (validate_same _ _ _ Hprev)|apply insert_id, Hprev].
  - intros reg obj v Hv Hnone. unfold from_json, bind, get, raise.
    rewrite Hv, Hnone. reflexivity.
Qed.

Lemma registry_duplicate_idempotent_unknown_witness :
  let reg : Registry := {[ "registration" := Examples.RegistrationPayload ]} in
  (exists msg, __new__ Examples.OtherPayload reg = (Raise (ValueError msg), reg)) /\
  _validate_transaction_type "registration" Examples.RegistrationPayload reg
  = (Return tt, reg) /\
  <["registration" := Examples.RegistrationPayload]> reg = reg /\
  from_json {[ "transaction_type" := VStr "ping"; "sender" := VStr "alice" ]} reg
    = (Raise (KeyError "ping"), reg).
Proof.
  intros reg.
  destruct registry_duplicate_idempotent_unknown as (_ & Hnew & Hsame & Hunk).
  assert (Hreg2 : registered_on_definition Examples.OtherPayload)
    by (unfold registered_on_definition; compute_done).
  destruct (Hsame reg "registration" Examples.RegistrationPayload eq_refl)
    as [Hvalid Hbind].
  split; [|split; [exact Hvalid|split; [exact Hbind|]]].
  - apply (Hnew reg Examples.OtherPayload Examples.RegistrationPayload
                (TagVal (VStr "registration")) Hreg2);
      [reflexivity|reflexivity|discriminate].
  - apply (Hunk reg _ (VStr "ping")); reflexivity.
Defined.

(** C9, the claim as it stands fails: a concrete payload class that declares
    no [transaction_type] and is defined in a module under [packages.] is
    made without any error. *)
Lemma untagged_packaged_class_is_made :
  concrete_payload_class Examples.PackagedUntaggedPayload /\
  hasattr Examples.PackagedUntaggedPayload "transaction_type" = false /\
  __new__ Examples.PackagedUntaggedPayload ∅
    = (Return Examples.PackagedUntaggedPayload, ∅).
Proof.
  split; [unfold concrete_payload_class; compute_done|].
  split; reflexivity.
Qed.

(** C9, amended. For a concrete payload class on which no
    [transaction_type] attribute is found: when its module is not under
    [packages.], making the class raises [AttributeError] (from the read in
    the guard of [_get_field]) and the registry stays as it was, so the
    class is not registered; when its module is under [packages.], the
    class is made with no check and the registry stays as it was. *)
Theorem untagged_class_aborts_outside_packages
    (reg : Registry) (cls : PyClass) :
  concrete_payload_class cls ->
  hasattr cls "transaction_type" = false ->
  (String.prefix "packages." (__module__ cls) = false ->
   __new__ cls reg = (Raise (AttributeError "transaction_type"), reg)) /\
  (String.prefix "packages." (__module__ cls) = true ->
   __new__ cls reg = (Return cls, reg)).
Proof.
  intros [Habc Hsub] Hno. unfold hasattr in Hno.
  apply bool_decide_eq_false in Hno.
  assert (Hnone : class_attrs cls !! "transaction_type" = None).
  { destruct (class_attrs cls !! "transaction_type") eqn:E; [|done].
    exfalso. apply Hno. eauto. }
  split; intros Hmod; unfold __new__, issubclass_BaseTxPayload; rewrite Hmod.
  - rewrite bool_decide_eq_false_2, bool_decide_eq_true_2 by done.
    cbn [negb]. rewrite (get_field_missing _ _ Hnone). reflexivity.
  - reflexivity.
Qed.

Lemma untagged_class_aborts_outside_packages_witness :
  __new__ Examples.UntaggedPayload {[ "registration" := Examples.RegistrationPayload ]}
    = (Raise (AttributeError "transaction_type"),
       {[ "registration" := Examples.RegistrationPayload ]}) /\
  __new__ Examples.PackagedUntaggedPayload ∅
    = (Return Examples.PackagedUntaggedPayload, ∅).
Proof.
  split.
  - apply (untagged_class_aborts_outside_packages _ Examples.UntaggedPayload);
      [unfold concrete_payload_class; compute_done|reflexivity|reflexivity].
  - apply (untagged_class_aborts_outside_packages _ Examples.PackagedUntaggedPayload);
      [unfold concrete_payload_class; compute_done|reflexivity|reflexivity].
Defined.

End Registry.

(** ** Payload equality *)

Lemma py_eq_refl (v : PyVal) : py_eq v v = true.
Proof.
  destruct v as [|b|z|s]; cbn.
  - reflexivity.
  - destruct b; reflexivity.
  - apply Z.eqb_refl.
  - apply bool_decide_eq_true_2. reflexivity.
Qed.

Lemma dict_eq_refl (d : gmap string PyVal) : dict_eq d d = true.
Proof.
  unfold dict_eq. apply bool_decide_eq_true_2.
  intros k ok Hk. rewrite lookup_merge in Hk.
  destruct (d !! k) as [v|]; cbn in Hk; [|discriminate].
  injection Hk as <-. apply py_eq_refl.
Qed.

(** C10. The equality of payloads looks at the sender and the data only:
    on two payloads it is the conjunction of the equality of the senders
    and of the equality of the data; so payloads of different classes and
    transaction types with the same sender and data are equal; and there is
    no test that the other operand is a payload: any object with an equal
    [sender] and an equal [data] is equal to the payload, and an object
    with no [sender] makes the comparison raise [AttributeError]. *)
Theorem BaseTxPayload_eq_sender_and_data :
  (forall p q : BaseTxPayload,
      BaseTxPayload_eq p (OPayload q)
      = Return (bool_decide (sender p = sender q) && dict_eq (data p) (data q))) /\
  (forall p q : BaseTxPayload,
      sender p = sender q -> data p = data q ->
      BaseTxPayload_eq p (OPayload q) = Return true) /\
  (forall (p : BaseTxPayload) (cls : string) (attrs : gmap string AttrVal),
      attrs !! "sender" = Some (AVal (VStr (sender p))) ->
      attrs !! "data" = Some (ADict (data p)) ->
      BaseTxPayload_eq p (OInstance cls attrs) = Return true) /\
  (forall (p : BaseTxPayload) (v : PyVal),
      BaseTxPayload_eq p (OValue v) = Raise (AttributeError "sender")).
Proof.
  assert (Hpq : forall p q : BaseTxPayload,
             BaseTxPayload_eq p (OPayload q)
             = Return (bool_decide (sender p = sender q) && dict_eq (data p) (data q))).
  { intros p q. unfold BaseTxPayload_eq. cbn.
    destruct (bool_decide (sender p = sender q)); reflexivity. }
  split; [exact Hpq|]. split; [|split].
  - intros p q Hs Hd. rewrite Hpq, Hs, Hd, dict_eq_refl.
    rewrite bool_decide_eq_true_2 by done. reflexivity.
  - intros p cls attrs Hs Hd. unfold BaseTxPayload_eq, getattr_obj.
    rewrite Hs, Hd. cbn. rewrite bool_decide_eq_true_2 by done.
    rewrite dict_eq_refl. reflexivity.
  - reflexivity.
Qed.

Lemma BaseTxPayload_eq_sender_and_data_witness :
  BaseTxPayload_eq (Examples.registration_of "alice")
                   (OPayload (Examples.ping_of "alice")) = Return true /\
  BaseTxPayload_eq (Examples.registration_of "alice")
                   (OInstance "SimpleNamespace"
                      {[ "sender" := AVal (VStr "alice"); "data" := ADict ∅ ]})
    = Return true.
Proof.
  destruct BaseTxPayload_eq_sender_and_data as (_ & Hpq & Hany & _).
  split.
  - apply (Hpq (Examples.registration_of "alice") (Examples.ping_of "alice"));
      reflexivity.
  - apply (Hany (Examples.registration_of "alice")); reflexivity.
Defined.

(** ** BasePeriodState *)

Section PeriodState.
Import BasePeriodState.

Lemma underscore_inj (p k : string) : "_" +:+ p = "_" +:+ k -> p = k.
Proof. cbv [String.append]. intros E. injection E. auto. Qed.

Lemma items_get_absent (ps : list string) (l : list (string * FieldVal)) (k : string) :
  l.*1 = (fun p => "_" +:+ p) <$> ps -> k ∉ ps ->
  items_get l ("_" +:+ k) = None.
Proof.
  revert l. induction ps as [|p ps IH]; intros [|[key v] l] Hkeys Hk;
    try discriminate; [reflexivity|].
  cbn in Hkeys. injection Hkeys as -> Hkeys.
  apply not_elem_of_cons in Hk as [Hne Hk].
  cbn [items_get]. destruct (String.eqb_spec ("_" +:+ p) ("_" +:+ k)) as [E|_].
  - apply underscore_inj in E. congruence.
  - apply IH; assumption.
Qed.

Lemma items_get_present (ps : list string) (l : list (string * FieldVal)) (k : string) :
  l.*1 = (fun p => "_" +:+ p) <$> ps -> k ∈ ps ->
  is_Some (items_get l ("_" +:+ k)).
Proof.
  revert l. induction ps as [|p ps IH]; intros [|[key v] l] Hkeys Hk;
    try discriminate; [by apply elem_of_nil in Hk|].
  cbn in Hkeys. injection Hkeys as -> Hkeys.
  cbn [items_get]. destruct (String.eqb_spec ("_" +:+ p) ("_" +:+ k)) as [_|Hne].
  - eauto.
  - apply elem_of_cons in Hk as [->|Hk]; [done|]. apply IH; assumption.
Qed.

Lemma copied_from_lookup (ps : list string) (l : list (string * FieldVal))
    (d0 : gmap string FieldVal) (k : string) :
  NoDup ps -> l.*1 = (fun p => "_" +:+ p) <$> ps ->
  copied_from l d0 !! k =
    match items_get l ("_" +:+ k) with
    | Some v => Some v
    | None => d0 !! k
    end.
Proof.
  revert l d0. induction ps as [|p ps IH]; intros [|[key v] l] d0 Hnd Hkeys;
    try discriminate; [reflexivity|].
  cbn in Hkeys. injection Hkeys as -> Hkeys.
  apply NoDup_cons in Hnd as [Hp Hnd].
  unfold copied_from in *. cbn [fold_left items_get].
  change (drop_first ("_" +:+ p)) with p.
  rewrite (IH l _ Hnd Hkeys).
  destruct (String.eqb_spec ("_" +:+ p) ("_" +:+ k)) as [E|Hne].
  - apply underscore_inj in E as ->.
    rewrite (items_get_absent ps l k Hkeys Hp). apply lookup_insert_eq.
  - destruct (items_get l ("_" +:+ k)); [reflexivity|].
    apply lookup_insert_ne. congruence.
Qed.

Lemma items_get_fmap (ps : list string) (g : string -> FieldVal) (k : string) :
  items_get ((fun p => ("_" +:+ p, g p)) <$> ps) ("_" +:+ k) =
    if decide (k ∈ ps) then Some (g k) else None.
Proof.
  induction ps as [|p ps IH]; [reflexivity|].
  cbn [fmap list_fmap items_get].
  destruct (String.eqb_spec ("_" +:+ p) ("_" +:+ k)) as [E|Hne].
  - apply underscore_inj in E as ->. rewrite decide_True by left. reflexivity.
  - rewrite IH. destruct (decide (k ∈ ps)) as [Hin|Hnin].
    + rewrite decide_True by (by right). reflexivity.
    + rewrite decide_False; [reflexivity|].
      intros [->|?]%elem_of_cons; [apply Hne; reflexivity|done].
Qed.

Lemma new_ok (cls : StateClass) (kwargs : gmap string FieldVal) (store : Store) :
  (forall k, is_Some (kwargs !! k) -> k ∈ init_params cls) ->
  new cls kwargs store =
    (Return (fresh (dom store)),
     <[fresh (dom store) :=
         {| type_ := cls;
            __dict__ := (fun p => ("_" +:+ p, default FNone (kwargs !! p)))
                          <$> init_params cls |}]> store).
Proof.
  intros Hkeys. unfold new.
  rewrite bool_decide_eq_true_2; [reflexivity|].
  intros k v Hk. apply Hkeys. eauto.
Qed.

Lemma new_unexpected (cls : StateClass) (kwargs : gmap string FieldVal)
    (store : Store) (k : string) :
  is_Some (kwargs !! k) -> k ∉ init_params cls ->
  new cls kwargs store =
    (Raise (TypeError "__init__() got an unexpected keyword argument"), store).
Proof.
  intros [v Hk] Hnin. unfold new.
  rewrite bool_decide_eq_false_2; [reflexivity|].
  intros Hall. apply Hnin, (Hall k v Hk).
Qed.

(** C8, the claim as it stands fails: an override under a name that no
    parameter of the constructor has makes [update] raise [TypeError]. *)
Lemma update_unknown_field_raises :
  update 1%positive {[ "round_number" := FVal (VInt 1) ]} Examples.one_state
  = (Raise (TypeError "__init__() got an unexpected keyword argument"),
     Examples.one_state).
Proof.
  unfold update, bind, get, Examples.one_state.
  rewrite lookup_singleton_eq.
  apply (new_unexpected _ _ _ "round_number").
  - rewrite lookup_union_l'; rewrite lookup_singleton_eq; eauto.
  - cbn. compute_done.
Qed.

(** C8, amended. For every period state [x] and every set of overrides [o]
    whose names are parameters of the constructor of [x]'s class,
    [update] returns a reference to a new object of the class of [x], whose
    field is [o[k]] for every [k] in [o] and the field of [x] for every
    other field; [x] and every other object of the store are as before. *)
Theorem update_overrides_and_copies
    (store : Store) (self : ref) (x : BasePeriodState) (o : gmap string FieldVal) :
  store !! self = Some x ->
  constructed x ->
  (forall k, is_Some (o !! k) -> k ∈ init_params (type_ x)) ->
  exists (self' : ref) (x' : BasePeriodState),
    update self o store = (Return self', <[self' := x']> store) /\
    store !! self' = None /\
    self' <> self /\
    <[self' := x']> store !! self = Some x /\
    type_ x' = type_ x /\
    constructed x' /\
    (forall k v, o !! k = Some v -> field x' k = Some v) /\
    (forall k, k ∈ init_params (type_ x) -> o !! k = None ->
               field x' k = field x k).
Proof.
  intros Hself [Hnd Hkeys] Ho.
  set (data := o ∪ copied_from (__dict__ x) ∅).
  assert (Hdata : forall k, data !! k =
            match o !! k with Some v => Some v | None => field x k end).
  { intros k. unfold data. rewrite lookup_union.
    rewrite (copied_from_lookup _ _ _ k Hnd Hkeys), lookup_empty.
    unfold field. destruct (o !! k), (items_get (__dict__ x) ("_" +:+ k)); reflexivity. }
  assert (Hdom : forall k, is_Some (data !! k) -> k ∈ init_params (type_ x)).
  { intros k. rewrite Hdata. destruct (o !! k) eqn:Hok; [intros _; apply Ho; eauto|].
    intros Hf. destruct (decide (k ∈ init_params (type_ x))) as [|Hnin]; [done|].
    unfold field in Hf. rewrite (items_get_absent _ _ _ Hkeys Hnin) in Hf.
    by destruct Hf. }
  set (self' := fresh (dom store)).
  assert (Hfresh : store !! self' = None).
  { apply not_elem_of_dom. apply is_fresh. }
  exists self'.
  exists {| type_ := type_ x;
            __dict__ := (fun p => ("_" +:+ p, default FNone (data !! p)))
                          <$> init_params (type_ x) |}.
  split; [|split; [|split; [|split; [|split; [|split; [|split]]]]]].
  - unfold update, bind, get. rewrite Hself. fold data.
    apply (new_ok _ _ _ Hdom).
  - exact Hfresh.
  - intros ->. congruence.
  - rewrite lookup_insert_ne; [exact Hself|]. intros ->. congruence.
  - reflexivity.
  - split; [exact Hnd|]. cbn [type_ __dict__].
    rewrite <- list_fmap_compose. reflexivity.
  - intros k v Hk. unfold field. cbn [__dict__].
    rewrite items_get_fmap, decide_True by (apply Ho; eauto).
    rewrite Hdata, Hk. reflexivity.
  - intros k Hin Hk. unfold field at 1. cbn [__dict__].
    rewrite items_get_fmap, decide_True by done.
    rewrite Hdata, Hk.
    destruct (items_get_present _ _ _ Hkeys Hin) as [v Hv].
    unfold field. rewrite Hv. reflexivity.
Qed.

End PeriodState.

Lemma update_overrides_and_copies_witness :
  exists (self' : ref) (x' : BasePeriodState),
    BasePeriodState.update 1%positive {[ "participants" := FFrozenSet {[ "carol" ]} ]}
      Examples.one_state
    = (Return self', <[self' := x']> Examples.one_state) /\
    self' <> 1%positive /\
    BasePeriodState.field x' "participants" = Some (FFrozenSet {[ "carol" ]}).
Proof.
  destruct (update_overrides_and_copies Examples.one_state 1%positive
              {| type_ := BasePeriodState_class;
                 __dict__ := [("_participants", FFrozenSet {[ "alice"; "bob" ]})] |}
              {[ "participants" := FFrozenSet {[ "carol" ]} ]})
    as (self' & x' & Hupd & _ & Hne & _ & _ & _ & Hov & _).
  - reflexivity.
  - split; [compute_done | reflexivity].
  - intros k [v Hk]. apply lookup_singleton_Some in Hk as [<- _]. compute_done.
  - exists self', x'. split; [exact Hupd|]. split; [exact Hne|].
    apply Hov. reflexivity.
Defined.

(** ** AbstractRound *)

Section Rounds.
Context {R Res : Type} `{!AbstractRound R Res}.

Lemma process_transaction_unknown (self : R) (tx : Transaction) :
  getattr_handler self (value (transaction_type (payload tx))) = None ->
  AbstractRound.process_transaction tx self
  = (Raise (ValueError "request not recognized"), self).
Proof.
  unfold AbstractRound.process_transaction, bind, get, raise.
  intros ->. reflexivity.
Qed.

Lemma process_transaction_not_valid (self : R) (tx : Transaction) handler :
  getattr_handler self (value (transaction_type (payload tx))) = Some handler ->
  AbstractRound.check_transaction self tx = false ->
  AbstractRound.process_transaction tx self
  = (Raise (TransactionNotValidError "transaction not valid"), self).
Proof.
  unfold AbstractRound.process_transaction, bind, get, raise.
  intros -> ->. reflexivity.
Qed.

Lemma process_transaction_handled (self : R) (tx : Transaction) handler :
  getattr_handler self (value (transaction_type (payload tx))) = Some handler ->
  AbstractRound.check_transaction self tx = true ->
  AbstractRound.process_transaction tx self = handler (payload tx) self.
Proof.
  unfold AbstractRound.process_transaction, bind, get, raise.
  intros -> ->. reflexivity.
Qed.

(** C5. [process_transaction] raises the [ValueError] of the unknown
    transaction type when the round has no handler for the tag of the
    payload, whatever the check says; with a handler, it runs
    [check_transaction] and raises [TransactionNotValidError] when the
    check fails, and otherwise runs the handler on the payload; the round
    is as it was after either error. *)
Theorem process_transaction_errors (self : R) (tx : Transaction) :
  (getattr_handler self (value (transaction_type (payload tx))) = None ->
   AbstractRound.process_transaction tx self
   = (Raise (ValueError "request not recognized"), self)) /\
  (forall handler,
      getattr_handler self (value (transaction_type (payload tx))) = Some handler ->
      AbstractRound.check_transaction self tx = false ->
      AbstractRound.process_transaction tx self
      = (Raise (TransactionNotValidError "transaction not valid"), self)) /\
  (forall handler,
      getattr_handler self (value (transaction_type (payload tx))) = Some handler ->
      AbstractRound.check_transaction self tx = true ->
      AbstractRound.process_transaction tx self = handler (payload tx) self).
Proof.
  split; [|split].
  - apply process_transaction_unknown.
  - apply process_transaction_not_valid.
  - apply process_transaction_handled.
Qed.

End Rounds.

Lemma process_transaction_errors_witness :
  AbstractRound.process_transaction (Examples.tx_ping "alice")
    (Examples.RegistrationRound [])
  = (Raise (ValueError "request not recognized"), Examples.RegistrationRound []) /\
  AbstractRound.process_transaction (Examples.tx_registration "alice")
    (Examples.RegistrationRound ["alice"])
  = (Raise (TransactionNotValidError "transaction not valid"),
     Examples.RegistrationRound ["alice"]) /\
  AbstractRound.process_transaction (Examples.tx_registration "bob")
    (Examples.RegistrationRound ["alice"])
  = (Return tt, Examples.RegistrationRound ["alice"; "bob"]).
Proof.
  split; [|split].
  - apply (process_transaction_errors (Examples.RegistrationRound [])
             (Examples.tx_ping "alice")). reflexivity.
  - eapply (process_transaction_errors (Examples.RegistrationRound ["alice"])
              (Examples.tx_registration "alice")); reflexivity.
  - destruct (process_transaction_errors (Examples.RegistrationRound ["alice"])
                (Examples.tx_registration "bob")) as (_ & _ & Hrun).
    rewrite (Hrun _ eq_refl eq_refl). reflexivity.
Defined.

(** ** Period *)

Section Periods.
Context {R Res Args : Type} `{!AbstractRound R Res}.
Implicit Types (p : Period R Res Args) (r : R) (tx : Transaction).

Ltac run_py :=
  unfold Period.call_on_round, Period.current_round, bind, get, put, modify,
    ret, raise, on_attr, try_except.

Lemma set_current_round_same p r :
  _current_round p = Some r -> Period.set_current_round (Some r) p = p.
Proof. destruct p. cbn. intros ->. reflexivity. Qed.

Lemma set_block_builder_same p :
  Period.set_block_builder (_block_builder p) p = p.
Proof. destruct p. reflexivity. Qed.

(** What [deliver_tx] does in its phase, by the verdict of the check and
    the outcome of the handler. *)
Lemma deliver_tx_rejected p r tx :
  _block_construction_phase p = WAITING_FOR_DELIVER_TX ->
  _current_round p = Some r ->
  AbstractRound.check_transaction r tx = false ->
  Period.deliver_tx tx p = (Return false, p).
Proof.
  intros Hph Hr Hcheck. unfold Period.deliver_tx. run_py.
  rewrite Hph, Hr, Hcheck. reflexivity.
Qed.

Lemma deliver_tx_accepted p r tx :
  _block_construction_phase p = WAITING_FOR_DELIVER_TX ->
  _current_round p = Some r ->
  AbstractRound.check_transaction r tx = true ->
  Period.deliver_tx tx p =
    match AbstractRound.process_transaction tx r with
    | (Return _, r') =>
        (Return true,
         Period.set_block_builder
           {| _current_header := _current_header (_block_builder p);
              _current_transactions :=
                _current_transactions (_block_builder p) ++ [tx] |}
           (Period.set_current_round (Some r') p))
    | (Raise e, r') => (Raise e, Period.set_current_round (Some r') p)
    end.
Proof.
  intros Hph Hr Hcheck.
  unfold Period.deliver_tx, BlockBuilder.add_transaction. run_py.
  rewrite Hph, Hr, Hcheck. cbn [bool_decide decide_rel negb].
  rewrite bool_decide_eq_true_2 by reflexivity. cbn [negb]. rewrite Hr.
  destruct (AbstractRound.process_transaction tx r) as [[[]|e] r']; reflexivity.
Qed.

(** What [commit] does in its phase on a block of the expected height. *)
Lemma commit_appends p r header :
  _block_construction_phase p = WAITING_FOR_COMMIT ->
  _current_round p = Some r ->
  _current_header (_block_builder p) = Some header ->
  custom_types.height header = Blockchain.height (_blockchain p) ->
  exists p',
    Period.commit p = (Return tt, p') /\
    _block_construction_phase p' = WAITING_FOR_BEGIN_BLOCK /\
    _block_builder p' = _block_builder p /\
    _blocks (_blockchain p') =
      _blocks (_blockchain p)
      ++ [Build_Block header (_current_transactions (_block_builder p))] /\
    match AbstractRound.end_block r with
    | None =>
        _current_round p' = Some r /\
        _previous_rounds p' = _previous_rounds p /\
        _round_results p' = _round_results p
    | Some (round_result, next_round) =>
        _current_round p' = next_round /\
        _previous_rounds p' = _previous_rounds p ++ [r] /\
        _round_results p' = _round_results p ++ [round_result]
    end.
Proof.
  intros Hph Hr Hh Hheight.
  destruct p as [chain ph [hd txs] cls cur prev results]. cbn in Hph, Hr, Hh, Hheight.
  subst ph cur hd.
  unfold Period.commit, Period._update_round, BlockBuilder.get_block,
    BlockBuilder.header. run_py.
  rewrite bool_decide_eq_true_2 by reflexivity.
  cbn -[Blockchain.add_block AbstractRound.end_block].
  rewrite add_block_ok by exact Hheight.
  cbn -[AbstractRound.end_block].
  destruct (AbstractRound.end_block r) as [[round_result next_round]|];
    eexists; (split; [reflexivity|]); cbn; repeat split; reflexivity.
Qed.

(** What the entry points do outside their phase. *)
Lemma begin_block_finished p header :
  Period.is_finished p = true ->
  Period.begin_block header p = (Raise period_finished, p).
Proof. intros Hfin. unfold Period.begin_block. run_py. rewrite Hfin. reflexivity. Qed.

Lemma begin_block_mismatch p header :
  Period.is_finished p = false ->
  _block_construction_phase p <> WAITING_FOR_BEGIN_BLOCK ->
  Period.begin_block header p = (Raise (phase_mismatch BEGIN_BLOCK), p).
Proof.
  intros Hfin Hph. unfold Period.begin_block. run_py.
  rewrite Hfin, bool_decide_eq_false_2 by exact Hph. reflexivity.
Qed.

Lemma deliver_tx_mismatch p tx :
  _block_construction_phase p <> WAITING_FOR_DELIVER_TX ->
  Period.deliver_tx tx p = (Raise (phase_mismatch DELIVER_TX), p).
Proof.
  intros Hph. unfold Period.deliver_tx. run_py.
  rewrite bool_decide_eq_false_2 by exact Hph. reflexivity.
Qed.

Lemma end_block_mismatch p :
  _block_construction_phase p <> WAITING_FOR_DELIVER_TX ->
  Period.end_block p = (Raise (phase_mismatch END_BLOCK), p).
Proof.
  intros Hph. unfold Period.end_block. run_py.
  rewrite bool_decide_eq_false_2 by exact Hph. reflexivity.
Qed.

Lemma commit_mismatch p :
  _block_construction_phase p <> WAITING_FOR_COMMIT ->
  Period.commit p = (Raise (phase_mismatch COMMIT), p).
Proof.
  intros Hph. unfold Period.commit. run_py.
  rewrite bool_decide_eq_false_2 by exact Hph. reflexivity.
Qed.

Lemma end_block_accepted p :
  _block_construction_phase p = WAITING_FOR_DELIVER_TX ->
  Period.end_block p
  = (Return tt, Period.set_block_construction_phase WAITING_FOR_COMMIT p).
Proof.
  intros Hph. unfold Period.end_block. run_py.
  rewrite bool_decide_eq_true_2 by exact Hph. reflexivity.
Qed.

Lemma begin_block_accepted p header :
  Period.is_finished p = false ->
  _block_construction_phase p = WAITING_FOR_BEGIN_BLOCK ->
  Period.begin_block header p
  = (Return tt,
     Period.set_block_builder
       {| _current_header := Some header; _current_transactions := [] |}
       (Period.set_block_construction_phase WAITING_FOR_DELIVER_TX p)).
Proof.
  intros Hfin Hph. unfold Period.begin_block. run_py.
  rewrite Hfin, bool_decide_eq_true_2 by exact Hph. reflexivity.
Qed.

(** When [add_block] raises, [commit] raises the same exception and the
    period is as it was. *)
Lemma commit_add_block_raises p header e c' :
  _block_construction_phase p = WAITING_FOR_COMMIT ->
  _current_header (_block_builder p) = Some header ->
  Blockchain.add_block
    (Build_Block header (_current_transactions (_block_builder p)))
    (_blockchain p) = (Raise e, c') ->
  Period.is_AddBlockError e = true /\ c' = _blockchain p /\
  Period.commit p = (Raise e, p).
Proof.
  intros Hph Hh Hadd.
  destruct p as [chain ph [hd txs] cls cur prev results].
  cbn -[Blockchain.add_block] in Hph, Hh, Hadd. subst ph hd.
  destruct (decide (custom_types.height header = Blockchain.height chain)) as [Heq|Hne].
  { rewrite add_block_ok in Hadd by exact Heq. discriminate. }
  pose proof (add_block_error chain (Build_Block header txs) Hne) as Herr.
  rewrite Herr in Hadd. injection Hadd as <- <-.
  split; [reflexivity|]. split; [reflexivity|].
  unfold Period.commit, BlockBuilder.get_block, BlockBuilder.header. run_py.
  rewrite bool_decide_eq_true_2 by reflexivity.
  cbn -[Blockchain.add_block]. rewrite Herr. reflexivity.
Qed.

Lemma setup_round_while_in_block p args :
  round_while_in_block (Period.setup args p).2.
Proof. right. cbn. eauto. Qed.

Lemma begin_block_round_while_in_block p header :
  round_while_in_block p -> round_while_in_block (Period.begin_block header p).2.
Proof.
  intros Hinv. destruct (Period.is_finished p) eqn:Hfin.
  { rewrite begin_block_finished by exact Hfin. exact Hinv. }
  destruct (decide (_block_construction_phase p = WAITING_FOR_BEGIN_BLOCK)) as [Hph|Hph].
  - rewrite begin_block_accepted by assumption. right. cbn.
    unfold Period.is_finished in Hfin. destruct (_current_round p); [eauto|discriminate].
  - rewrite begin_block_mismatch by assumption. exact Hinv.
Qed.

Lemma deliver_tx_round_while_in_block p tx :
  round_while_in_block p -> round_while_in_block (Period.deliver_tx tx p).2.
Proof.
  intros Hinv.
  destruct (decide (_block_construction_phase p = WAITING_FOR_DELIVER_TX)) as [Hph|Hph];
    [|rewrite deliver_tx_mismatch by assumption; exact Hinv].
  destruct Hinv as [Hbegin|[r Hr]]; [congruence|].
  destruct (AbstractRound.check_transaction r tx) eqn:Hcheck.
  - rewrite (deliver_tx_accepted p r tx Hph Hr Hcheck).
    destruct (AbstractRound.process_transaction tx r) as [[[]|e] r'];
      right; cbn; eauto.
  - rewrite (deliver_tx_rejected p r tx Hph Hr Hcheck). right. eauto.
Qed.

Lemma end_block_round_while_in_block p :
  round_while_in_block p -> round_while_in_block (Period.end_block p).2.
Proof.
  intros Hinv.
  destruct (decide (_block_construction_phase p = WAITING_FOR_DELIVER_TX)) as [Hph|Hph];
    [|rewrite end_block_mismatch by assumption; exact Hinv].
  rewrite end_block_accepted by assumption.
  destruct Hinv as [Hbegin|Hr]; [congruence|]. right. exact Hr.
Qed.

Lemma commit_round_while_in_block p :
  round_while_in_block p -> round_while_in_block (Period.commit p).2.
Proof.
  intros Hinv.
  destruct (decide (_block_construction_phase p = WAITING_FOR_COMMIT)) as [Hph|Hph];
    [|rewrite commit_mismatch by assumption; exact Hinv].
  destruct Hinv as [Hbegin|[r Hr]]; [congruence|].
  destruct (_current_header (_block_builder p)) as [header|] eqn:Hh.
  - destruct (decide (custom_types.height header = Blockchain.height (_blockchain p)))
      as [Heq|Hne].
    + destruct (commit_appends p r header Hph Hr Hh Heq) as (p' & -> & Hph' & _).
      left. exact Hph'.
    + pose proof (add_block_error (_blockchain p)
                    (Build_Block header (_current_transactions (_block_builder p))) Hne)
        as Herr.
      destruct (commit_add_block_raises p header _ _ Hph Hh Herr) as (_ & _ & ->).
      right. eauto.
  - right. destruct p as [chain ph [hd txs] cls cur prev results].
    cbn in Hph, Hr, Hh. subst ph cur hd.
    unfold Period.commit, BlockBuilder.get_block, BlockBuilder.header. run_py.
    rewrite bool_decide_eq_true_2 by reflexivity. cbn. eauto.
Qed.

Lemma reachable_round_while_in_block p :
  reachable p -> round_while_in_block p.
Proof.
  induction 1 as [cls|p args _ _|p ep header tx _ IH].
  - left. reflexivity.
  - apply setup_round_while_in_block.
  - destruct ep; unfold call.
    + apply begin_block_round_while_in_block, IH.
    + pose proof (deliver_tx_round_while_in_block p tx IH) as Hd.
      unfold bind, ret. destruct (Period.deliver_tx tx p) as [[b|e] p']; exact Hd.
    + apply end_block_round_while_in_block, IH.
    + apply commit_round_while_in_block, IH.
Qed.

(** C1, amended. In the phase [WAITING_FOR_DELIVER_TX], with a current
    round: when [check_transaction] is false, [deliver_tx] returns false and
    the period (its round and its block builder) is as it was, so that the
    block that the next [commit] appends holds the transactions that the
    builder held before; when it is true and the round has a handler for
    the tag, the handler runs on the round and, when it returns, the
    transaction is appended to the builder and [deliver_tx] returns true,
    and when it raises, [deliver_tx] raises the same and appends nothing;
    when it is true and the round has no handler for the tag, [deliver_tx]
    raises the [ValueError] of [process_transaction] and the period is as
    it was. *)
Theorem deliver_tx_by_verdict p r tx :
  _block_construction_phase p = WAITING_FOR_DELIVER_TX ->
  _current_round p = Some r ->
  (AbstractRound.check_transaction r tx = false ->
   Period.deliver_tx tx p = (Return false, p) /\
   forall header,
     _current_header (_block_builder p) = Some header ->
     custom_types.height header = Blockchain.height (_blockchain p) ->
     _blocks (_blockchain
                (Period.commit (Period.end_block (Period.deliver_tx tx p).2).2).2)
     = _blocks (_blockchain p)
       ++ [Build_Block header (_current_transactions (_block_builder p))]) /\
  (AbstractRound.check_transaction r tx = true ->
   forall handler,
     getattr_handler r (value (transaction_type (payload tx))) = Some handler ->
     match handler (payload tx) r with
     | (Return _, r') =>
         Period.deliver_tx tx p
         = (Return true,
            Period.set_block_builder
              {| _current_header := _current_header (_block_builder p);
                 _current_transactions :=
                   _current_transactions (_block_builder p) ++ [tx] |}
              (Period.set_current_round (Some r') p))
     | (Raise e, r') =>
         Period.deliver_tx tx p = (Raise e, Period.set_current_round (Some r') p)
     end) /\
  (AbstractRound.check_transaction r tx = true ->
   getattr_handler r (value (transaction_type (payload tx))) = None ->
   Period.deliver_tx tx p = (Raise (ValueError "request not recognized"), p)).
Proof.
  intros Hph Hr. split; [|split].
  - intros Hcheck. rewrite (deliver_tx_rejected p r tx Hph Hr Hcheck).
    split; [reflexivity|]. intros header Hh Hheight. cbn [snd].
    rewrite (end_block_accepted p Hph). cbn [snd].
    destruct (commit_appends
                (Period.set_block_construction_phase WAITING_FOR_COMMIT p)
                r header eq_refl Hr Hh Hheight) as (p' & -> & _ & _ & Hblocks & _).
    exact Hblocks.
  - intros Hcheck handler Hhandler.
    rewrite (deliver_tx_accepted p r tx Hph Hr Hcheck).
    rewrite (process_transaction_handled r tx handler Hhandler Hcheck).
    destruct (handler (payload tx) r) as [[[]|e] r']; reflexivity.
  - intros Hcheck Hhandler.
    rewrite (deliver_tx_accepted p r tx Hph Hr Hcheck).
    rewrite (process_transaction_unknown r tx Hhandler).
    rewrite (set_current_round_same p r Hr). reflexivity.
Qed.

(** C2. In the phase [WAITING_FOR_COMMIT], when [add_block] raises on the
    block of the builder, the exception is an [AddBlockError], [commit]
    raises it, and the period is as it was: the phase is still
    [WAITING_FOR_COMMIT], the chain has no new block, and the current round
    and the histories are not updated. *)
Theorem commit_propagates_AddBlockError p header e c' :
  _block_construction_phase p = WAITING_FOR_COMMIT ->
  _current_header (_block_builder p) = Some header ->
  Blockchain.add_block
    (Build_Block header (_current_transactions (_block_builder p)))
    (_blockchain p) = (Raise e, c') ->
  Period.is_AddBlockError e = true /\
  Period.commit p = (Raise e, p) /\
  _block_construction_phase (Period.commit p).2 = WAITING_FOR_COMMIT /\
  _blockchain (Period.commit p).2 = _blockchain p /\
  _current_round (Period.commit p).2 = _current_round p.
Proof.
  intros Hph Hh Hadd.
  destruct (commit_add_block_raises p header e c' Hph Hh Hadd) as (He & _ & Hcommit).
  rewrite Hcommit. cbn [snd]. auto.
Qed.

(** C3, amended. In a period that a program can hold, each of the four
    entry points called in a phase that is not its own raises its phase
    error and leaves the period as it was; that is eight of the twelve
    combinations of an entry point and a phase, [deliver_tx] and
    [end_block] sharing their phase; and [begin_block] on a finished period
    raises the error of the finished period. *)
Theorem entry_points_reject_other_phases :
  (forall p ep header tx,
      reachable p ->
      _block_construction_phase p <> matching_phase ep ->
      call ep header tx p = (Raise (phase_mismatch ep), p)) /\
  length (filter (fun c => c.2 <> matching_phase c.1) combinations) = 8%nat /\
  length combinations = 12%nat /\
  (forall p header,
      Period.is_finished p = true ->
      Period.begin_block header p = (Raise period_finished, p)).
Proof.
  split; [|split; [vm_compute; reflexivity|split; [reflexivity|]]].
  - intros p ep header tx Hreach Hph. destruct ep; unfold call; cbn in Hph.
    + apply begin_block_mismatch; [|exact Hph].
      destruct (reachable_round_while_in_block p Hreach) as [Hbegin|[r Hr]];
        [congruence|]. unfold Period.is_finished. rewrite Hr. reflexivity.
    + unfold bind. rewrite (deliver_tx_mismatch p tx Hph). reflexivity.
    + apply end_block_mismatch, Hph.
    + apply commit_mismatch, Hph.
  - intros p header. apply begin_block_finished.
Qed.

End Periods.

(** C1, the claim as it stands fails: the round in the period checks the
    transaction (it has [check_ping]) and has no handler for it (no
    [ping]); [deliver_tx] raises instead of returning the verdict, and the
    transaction is neither processed nor appended. *)
Lemma deliver_tx_checked_but_unhandled :
  _block_construction_phase Examples.period_in_block = WAITING_FOR_DELIVER_TX /\
  _current_round Examples.period_in_block = Some (Examples.RegistrationRound []) /\
  AbstractRound.check_transaction (Examples.RegistrationRound [])
    (Examples.tx_ping "alice") = true /\
  Period.deliver_tx (Examples.tx_ping "alice") Examples.period_in_block
  = (Raise (ValueError "request not recognized"), Examples.period_in_block).
Proof. repeat split; reflexivity. Qed.

Lemma deliver_tx_by_verdict_witness :
  let tx := Examples.tx_registration "alice" in
  let p := Examples.period_in_block in
  let p' := (Period.deliver_tx tx p).2 in
  Period.deliver_tx tx p
  = (Return true,
     Period.set_block_builder
       {| _current_header := Some (Build_Header 1); _current_transactions := [tx] |}
       (Period.set_current_round (Some (Examples.RegistrationRound ["alice"])) p)) /\
  Period.deliver_tx (Examples.tx_ping "alice") p
  = (Raise (ValueError "request not recognized"), p) /\
  Period.deliver_tx tx p' = (Return false, p').
Proof.
  intros tx p p'. split; [|split].
  - destruct (deliver_tx_by_verdict p (Examples.RegistrationRound []) tx)
      as (_ & Hacc & _); [reflexivity|reflexivity|].
    apply (Hacc eq_refl _ eq_refl).
  - destruct (deliver_tx_by_verdict p (Examples.RegistrationRound [])
                (Examples.tx_ping "alice"))
      as (_ & _ & Hnone); [reflexivity|reflexivity|].
    apply Hnone; reflexivity.
  - destruct (deliver_tx_by_verdict p' (Examples.RegistrationRound ["alice"]) tx)
      as (Hrej & _); [vm_compute; reflexivity|vm_compute; reflexivity|].
    apply Hrej. vm_compute. reflexivity.
Defined.

Lemma commit_propagates_AddBlockError_witness :
  let p :=
    (Period.end_block
       (Period.begin_block (Build_Header 3)
          (Period.setup [] Examples.new_period).2).2).2 in
  Period.commit p
  = (Raise (AddBlockError "expected height 1, got 3"), p) /\
  _block_construction_phase (Period.commit p).2 = WAITING_FOR_COMMIT.
Proof.
  intros p.
  destruct (commit_propagates_AddBlockError p (Build_Header 3)
              (AddBlockError "expected height 1, got 3") Blockchain.init
              eq_refl eq_refl eq_refl) as (_ & Hcommit & Hph & _).
  split; [exact Hcommit | exact Hph].
Defined.

(** C3, the claim as it stands fails: four of the twelve combinations are
    accepted, one for each entry point, so the failing ones are eight and
    not nine. *)
Lemma four_combinations_are_accepted :
  let tx := Examples.tx_registration "alice" in
  let p1 := (Period.setup [] Examples.new_period).2 in
  let p2 := Examples.period_in_block in
  let p3 := (Period.end_block p2).2 in
  (_block_construction_phase p1 = matching_phase BEGIN_BLOCK /\
   (call BEGIN_BLOCK (Build_Header 1) tx p1).1 = Return tt) /\
  (_block_construction_phase p2 = matching_phase DELIVER_TX /\
   (call DELIVER_TX (Build_Header 1) tx p2).1 = Return tt) /\
  (_block_construction_phase p2 = matching_phase END_BLOCK /\
   (call END_BLOCK (Build_Header 1) tx p2).1 = Return tt) /\
  (_block_construction_phase p3 = matching_phase COMMIT /\
   (call COMMIT (Build_Header 1) tx p3).1 = Return tt) /\
  length (filter (fun c => c.2 <> matching_phase c.1) combinations) <> 9%nat.
Proof.
  cbv zeta. repeat split; try reflexivity. vm_compute. discriminate.
Qed.

Lemma entry_points_reject_other_phases_witness :
  call COMMIT (Build_Header 1) (Examples.tx_ping "alice") Examples.period_in_block
  = (Raise (ValueError "cannot accept a 'commit' request."), Examples.period_in_block) /\
  Period.begin_block (Build_Header 1) Examples.new_period
  = (Raise (ValueError "period is finished, cannot accept new blocks"),
     Examples.new_period).
Proof.
  destruct (@entry_points_reject_other_phases Examples.ExampleRound Z (list string) _)
    as (Hcall & _ & _ & Hfin).
  split.
  - apply (Hcall Examples.period_in_block COMMIT).
    + exact (reachable_call _ BEGIN_BLOCK (Build_Header 1) (Examples.tx_ping "alice")
               (reachable_setup _ [] (reachable_init Examples.RegistrationRound))).
    + discriminate.
  - apply (Hfin Examples.new_period). reflexivity.
Defined.

(* ================================================================== *)
(** * Further properties *)

(** ** BlockBuilder *)

Lemma add_transactions_appends (txs : list Transaction) (b : BlockBuilder) :
  for_each BlockBuilder.add_transaction txs b
  = (Return (replicate (length txs) tt),
     {| _current_header := _current_header b;
        _current_transactions := _current_transactions b ++ txs |}).
Proof.
  revert b. induction txs as [|tx txs IH]; intros [hd cur].
  - cbn. rewrite app_nil_r. reflexivity.
  - cbn [for_each]. unfold bind at 1. unfold BlockBuilder.add_transaction at 1, modify.
    unfold bind at 1. rewrite IH. cbn. rewrite <- app_assoc. reflexivity.
Qed.

(** X1. Whatever the builder held, after [reset], the setting of the header
    and the addition of transactions one by one, [get_block] returns the
    block of that header with exactly those transactions in the order of
    their addition. *)
Theorem BlockBuilder_builds_in_order
    (b : BlockBuilder) (h : Header) (txs : list Transaction) :
  (BlockBuilder.reset ;;;
   BlockBuilder.set_header h ;;;
   for_each BlockBuilder.add_transaction txs ;;;
   BlockBuilder.get_block) b
  = (Return (Build_Block h txs),
     {| _current_header := Some h; _current_transactions := txs |}).
Proof.
  unfold bind at 1. unfold BlockBuilder.reset at 1, put.
  unfold bind at 1. change (BlockBuilder.set_header h _)
    with (Return tt, {| _current_header := Some h; _current_transactions := [] |}).
  unfold bind at 1. rewrite add_transactions_appends. reflexivity.
Qed.

(** X2. The header is set once per block: without a header [get_block]
    raises; a second setting of the header raises and keeps the first
    header; after a [reset] the header can be set again. *)
Theorem BlockBuilder_header_once (b : BlockBuilder) (h h' : Header) :
  (BlockBuilder.reset ;;; BlockBuilder.get_block) b
  = (Raise (ValueError "header not set"),
     {| _current_header := None; _current_transactions := [] |}) /\
  (BlockBuilder.reset ;;; BlockBuilder.set_header h ;;; BlockBuilder.set_header h') b
  = (Raise (ValueError "header already set"),
     {| _current_header := Some h; _current_transactions := [] |}) /\
  (BlockBuilder.reset ;;; BlockBuilder.set_header h ;;;
   BlockBuilder.reset ;;; BlockBuilder.set_header h') b
  = (Return tt, {| _current_header := Some h'; _current_transactions := [] |}).
Proof. repeat split. Qed.

(** ** Period: what a call can change *)

Section PeriodTraces.
Context {R Res Args : Type} `{!AbstractRound R Res}.
Implicit Types (p : Period R Res Args) (r : R) (tx : Transaction).

(** The outcomes of [deliver_tx], in any period. *)
Lemma deliver_tx_cases p tx :
  Period.deliver_tx tx p = (Return false, p) \/
  (exists e, Period.deliver_tx tx p = (Raise e, p)) \/
  (exists r r',
      _block_construction_phase p = WAITING_FOR_DELIVER_TX /\
      _current_round p = Some r /\
      (Period.deliver_tx tx p
       = (Return true,
          Period.set_block_builder
            {| _current_header := _current_header (_block_builder p);
               _current_transactions :=
                 _current_transactions (_block_builder p) ++ [tx] |}
            (Period.set_current_round (Some r') p)) \/
       exists e,
         Period.deliver_tx tx p = (Raise e, Period.set_current_round (Some r') p))).
Proof.
  destruct (decide (_block_construction_phase p = WAITING_FOR_DELIVER_TX)) as [Hph|Hph];
    [|right; left; eexists; apply deliver_tx_mismatch, Hph].
  destruct (_current_round p) as [r|] eqn:Hr.
  - destruct (AbstractRound.check_transaction r tx) eqn:Hcheck.
    + right. right. rewrite (deliver_tx_accepted p r tx Hph Hr Hcheck).
      destruct (AbstractRound.process_transaction tx r) as [[[]|e] r'];
        exists r, r'; (split; [exact Hph|]); (split; [reflexivity|]); eauto.
    + left. apply (deliver_tx_rejected p r tx Hph Hr Hcheck).
  - right. left. eexists. unfold Period.deliver_tx, bind, get, raise.
    rewrite bool_decide_eq_true_2 by exact Hph. cbn [negb]. rewrite Hr. reflexivity.
Qed.

(** The outcomes of [commit], in any period. *)
Lemma commit_cases p :
  (exists e, Period.commit p = (Raise e, p)) \/
  (exists header,
      _block_construction_phase p = WAITING_FOR_COMMIT /\
      _current_header (_block_builder p) = Some header /\
      custom_types.height header = Blockchain.height (_blockchain p) /\
      ((_current_round p = None /\
        Period.commit p
        = (Raise (ValueError "current_round not set!"),
           Period.set_blockchain
             {| _blocks := _blocks (_blockchain p)
                  ++ [Build_Block header (_current_transactions (_block_builder p))] |}
             p)) \/
       (exists r p',
           _current_round p = Some r /\
           Period.commit p = (Return tt, p') /\
           _block_construction_phase p' = WAITING_FOR_BEGIN_BLOCK /\
           _block_builder p' = _block_builder p /\
           _blocks (_blockchain p') =
             _blocks (_blockchain p)
             ++ [Build_Block header (_current_transactions (_block_builder p))] /\
           match AbstractRound.end_block r with
           | None =>
               _current_round p' = Some r /\
               _previous_rounds p' = _previous_rounds p /\
               _round_results p' = _round_results p
           | Some (round_result, next_round) =>
               _current_round p' = next_round /\
               _previous_rounds p' = _previous_rounds p ++ [r] /\
               _round_results p' = _round_results p ++ [round_result]
           end))).
Proof.
  destruct (decide (_block_construction_phase p = WAITING_FOR_COMMIT)) as [Hph|Hph];
    [|left; eexists; apply commit_mismatch, Hph].
  destruct (_current_header (_block_builder p)) as [header|] eqn:Hh.
  - destruct (decide (custom_types.height header = Blockchain.height (_blockchain p)))
      as [Heq|Hne].
    + right. exists header. do 3 (split; [done|]).
      destruct (_current_round p) as [r|] eqn:Hr.
      * right. destruct (commit_appends p r header Hph Hr Hh Heq) as (p' & Hc).
        exists r, p'. split; [reflexivity|exact Hc].
      * left. split; [reflexivity|].
        destruct p as [chain ph [hd txs] cls cur prev results].
        cbn in Hph, Hh, Hr, Heq. subst ph hd cur.
        unfold Period.commit, Period._update_round, Period.current_round,
          BlockBuilder.get_block, BlockBuilder.header,
          bind, get, put, modify, ret, raise, on_attr, try_except.
        rewrite bool_decide_eq_true_2 by reflexivity.
        cbn -[Blockchain.add_block]. rewrite add_block_ok by exact Heq. reflexivity.
    + left. eexists.
      pose proof (add_block_error (_blockchain p)
                    (Build_Block header (_current_transactions (_block_builder p))) Hne)
        as Herr.
      apply (commit_add_block_raises p header _ _ Hph Hh Herr).
  - left. exists (ValueError "header not set").
    destruct p as [chain ph [hd txs] cls cur prev results].
    cbn in Hph, Hh. subst ph hd.
    unfold Period.commit, BlockBuilder.get_block, BlockBuilder.header,
      bind, get, put, modify, ret, raise, on_attr, try_except.
    rewrite bool_decide_eq_true_2 by reflexivity. reflexivity.
Qed.

(** The outcomes of [begin_block] and of [end_block], in any period. *)
Lemma begin_block_cases p header :
  (exists e, Period.begin_block header p = (Raise e, p)) \/
  (is_Some (_current_round p) /\
   _block_construction_phase p = WAITING_FOR_BEGIN_BLOCK /\
   Period.begin_block header p
   = (Return tt,
      Period.set_block_builder
        {| _current_header := Some header; _current_transactions := [] |}
        (Period.set_block_construction_phase WAITING_FOR_DELIVER_TX p))).
Proof.
  destruct (Period.is_finished p) eqn:Hfin.
  { left. eexists. apply begin_block_finished, Hfin. }
  destruct (decide (_block_construction_phase p = WAITING_FOR_BEGIN_BLOCK)) as [Hph|Hph].
  - right. split; [|split; [exact Hph|apply begin_block_accepted; assumption]].
    unfold Period.is_finished in Hfin. destruct (_current_round p); [eauto|discriminate].
  - left. eexists. apply begin_block_mismatch; assumption.
Qed.

Lemma end_block_cases p :
  (exists e, Period.end_block p = (Raise e, p)) \/
  (_block_construction_phase p = WAITING_FOR_DELIVER_TX /\
   Period.end_block p
   = (Return tt, Period.set_block_construction_phase WAITING_FOR_COMMIT p)).
Proof.
  destruct (decide (_block_construction_phase p = WAITING_FOR_DELIVER_TX)) as [Hph|Hph].
  - right. split; [exact Hph|apply end_block_accepted, Hph].
  - left. eexists. apply end_block_mismatch, Hph.
Qed.

(** What a call of an entry point does to the chain and to the
    histories. *)
Lemma call_changes p ep header tx :
  let p' := (call ep header tx p).2 in
  (_blockchain p' = _blockchain p /\
   length (_previous_rounds p') = length (_previous_rounds p) /\
   length (_round_results p') = length (_round_results p)) \/
  (ep = COMMIT /\
   _block_construction_phase p = WAITING_FOR_COMMIT /\
   (exists block,
       Blockchain.add_block block (_blockchain p) = (Return tt, _blockchain p')) /\
   ((_previous_rounds p' = _previous_rounds p /\
     _round_results p' = _round_results p) \/
    (exists r round_result,
        _current_round p = Some r /\
        _previous_rounds p' = _previous_rounds p ++ [r] /\
        _round_results p' = _round_results p ++ [round_result]))).
Proof.
  cbv zeta. destruct ep; unfold call.
  - left. destruct (begin_block_cases p header) as [[e ->]|(_ & _ & ->)];
      repeat split.
  - left. unfold bind, ret.
    destruct (deliver_tx_cases p tx)
      as [->|[[e ->]|(r & r' & _ & _ & [->|[e ->]])]]; repeat split.
  - left. destruct (end_block_cases p) as [[e ->]|[_ ->]]; repeat split.
  - destruct (commit_cases p)
      as [[e ->]|(h & Hph & Hh & Heq & [[Hr ->]|(r & p' & Hr & -> & _ & _ & Hb & Hend)])].
    + left. repeat split.
    + right. split; [reflexivity|]. split; [exact Hph|]. split.
      * exists (Build_Block h (_current_transactions (_block_builder p))).
        cbn [snd _blockchain Period.set_blockchain].
        apply add_block_ok, Heq.
      * left. destruct p; split; reflexivity.
    + right. split; [reflexivity|]. split; [exact Hph|]. cbn [snd]. split.
      * exists (Build_Block h (_current_transactions (_block_builder p))).
        rewrite add_block_ok by exact Heq. f_equal.
        destruct (_blockchain p'). cbn in Hb. rewrite Hb. reflexivity.
      * destruct (AbstractRound.end_block r) as [[round_result next_round]|].
        -- right. exists r, round_result. destruct Hend as (_ & ? & ?). auto.
        -- left. destruct Hend as (_ & ? & ?). auto.
Qed.

Lemma setup_changes p args :
  _blockchain (Period.setup args p).2 = _blockchain p /\
  _block_construction_phase (Period.setup args p).2 = _block_construction_phase p /\
  _block_builder (Period.setup args p).2 = _block_builder p /\
  _previous_rounds (Period.setup args p).2 = _previous_rounds p /\
  _round_results (Period.setup args p).2 = _round_results p.
Proof. destruct p. repeat split. Qed.

Lemma reachable_header_while_in_block p :
  reachable p -> header_while_in_block p.
Proof.
  induction 1 as [cls|p args _ IH|p ep header tx _ IH].
  - left. reflexivity.
  - destruct (setup_changes p args) as (_ & Hph & Hb & _).
    unfold header_while_in_block. rewrite Hph, Hb. exact IH.
  - destruct ep; unfold call.
    + destruct (begin_block_cases p header) as [[e ->]|(_ & _ & ->)];
        [exact IH|]. right. cbn. eauto.
    + unfold bind, ret.
      destruct (deliver_tx_cases p tx)
        as [->|[[e ->]|(r & r' & Hph & _ & [->|[e ->]])]]; exact IH.
    + destruct (end_block_cases p) as [[e ->]|[Hph ->]]; [exact IH|].
      destruct IH as [IH|IH]; [congruence|]. right. exact IH.
    + destruct (commit_cases p)
        as [[e ->]|(h & Hph & Hh & Heq & [[Hr ->]|(r & p' & Hr & -> & Hph' & _)])].
      * exact IH.
      * right. cbn. destruct p. cbn in *. rewrite Hh. eauto.
      * left. exact Hph'.
Qed.

(** X3. In a period that a program can hold, [commit] in its phase either
    returns, with one more block on the chain and the phase back to
    [WAITING_FOR_BEGIN_BLOCK], or raises [AddBlockError] and leaves the
    period as it was: the builder has its header and the period its current
    round, so no other error is raised. *)
Theorem commit_returns_or_AddBlockError p :
  reachable p ->
  _block_construction_phase p = WAITING_FOR_COMMIT ->
  (exists p',
      Period.commit p = (Return tt, p') /\
      _block_construction_phase p' = WAITING_FOR_BEGIN_BLOCK /\
      length (_blocks (_blockchain p')) = S (length (_blocks (_blockchain p)))) \/
  (exists msg, Period.commit p = (Raise (AddBlockError msg), p)).
Proof.
  intros Hreach Hph.
  destruct (reachable_round_while_in_block p Hreach) as [?|[r Hr]]; [congruence|].
  destruct (reachable_header_while_in_block p Hreach) as [?|[h Hh]]; [congruence|].
  destruct (decide (custom_types.height h = Blockchain.height (_blockchain p)))
    as [Heq|Hne].
  - left. destruct (commit_appends p r h Hph Hr Hh Heq) as (p' & Hc & Hph' & _ & Hb & _).
    exists p'. split; [exact Hc|]. split; [exact Hph'|].
    rewrite Hb, length_app. cbn. lia.
  - right. eexists.
    pose proof (add_block_error (_blockchain p)
                  (Build_Block h (_current_transactions (_block_builder p))) Hne) as Herr.
    apply (commit_add_block_raises p h _ _ Hph Hh Herr).
Qed.

(** X4. The two histories grow together: a call of an entry point leaves
    the lengths of both as they were or, in [commit] only, makes each of
    them longer by one; so in a period that a program can hold they have
    the same length. *)
Theorem histories_grow_together :
  (forall p ep header tx,
      let p' := (call ep header tx p).2 in
      (length (_previous_rounds p') = length (_previous_rounds p) /\
       length (_round_results p') = length (_round_results p)) \/
      (ep = COMMIT /\
       length (_previous_rounds p') = S (length (_previous_rounds p)) /\
       length (_round_results p') = S (length (_round_results p)))) /\
  (forall p, reachable p ->
             length (_previous_rounds p) = length (_round_results p)).
Proof.
  assert (Hstep : forall p ep header tx,
             let p' := (call ep header tx p).2 in
             (length (_previous_rounds p') = length (_previous_rounds p) /\
              length (_round_results p') = length (_round_results p)) \/
             (ep = COMMIT /\
              length (_previous_rounds p') = S (length (_previous_rounds p)) /\
              length (_round_results p') = S (length (_round_results p)))).
  { intros p ep header tx. cbv zeta.
    destruct (call_changes p ep header tx)
      as [(_ & ? & ?)|(Hep & _ & _ & [[-> ->]|(r & res & _ & -> & ->)])]; auto.
    right. split; [exact Hep|]. rewrite !length_app. cbn [length]. lia. }
  split; [exact Hstep|].
  induction 1 as [cls|p args _ IH|p ep header tx _ IH].
  - reflexivity.
  - destruct (setup_changes p args) as (_ & _ & _ & -> & ->). exact IH.
  - destruct (Hstep p ep header tx) as [[-> ->]|(_ & -> & ->)]; [exact IH|].
    rewrite IH. reflexivity.
Qed.

(** X5. Only [commit] changes the chain: every other entry point and
    [setup] leave it as it was, and [commit] leaves it as it was or adds
    one block to it by a successful [add_block]. *)
Theorem chain_changes_in_commit_only :
  (forall p args, _blockchain (Period.setup args p).2 = _blockchain p) /\
  (forall p ep header tx,
      ep <> COMMIT -> _blockchain (call ep header tx p).2 = _blockchain p) /\
  (forall p,
      _blockchain (Period.commit p).2 = _blockchain p \/
      exists block,
        Blockchain.add_block block (_blockchain p)
        = (Return tt, _blockchain (Period.commit p).2)).
Proof.
  split; [|split].
  - intros p args. apply setup_changes.
  - intros p ep header tx Hep.
    destruct (call_changes p ep header tx) as [(? & _)|(? & _)]; [done|congruence].
  - intros p.
    destruct (commit_cases p)
      as [[e ->]|(h & _ & _ & Heq & [[_ ->]|(r & p' & _ & -> & _ & _ & Hb & _)])].
    + left. reflexivity.
    + right. exists (Build_Block h (_current_transactions (_block_builder p))).
      cbn [snd _blockchain Period.set_blockchain]. apply add_block_ok, Heq.
    + right. exists (Build_Block h (_current_transactions (_block_builder p))).
      rewrite add_block_ok by exact Heq. cbn [snd]. f_equal.
      destruct (_blockchain p'). cbn in Hb. rewrite Hb. reflexivity.
Qed.

Lemma reachable_appended p :
  reachable p -> exists n, appended n (_blockchain p).
Proof.
  induction 1 as [cls|p args _ IH|p ep header tx _ IH].
  - exists O. constructor.
  - destruct (setup_changes p args) as (-> & _). exact IH.
  - destruct IH as [n IH].
    destruct (call_changes p ep header tx) as [(-> & _)|(_ & _ & [b Hb] & _)].
    + exists n. exact IH.
    + exists (S n). exact (appended_S n _ b _ IH Hb).
Qed.

(** X6. In a period that a program can hold, the blocks of the chain have
    the heights 1, 2, ..., up to the number of blocks. *)
Theorem reachable_chain_heights p :
  reachable p ->
  heights (_blockchain p)
  = Z.of_nat <$> seq 1 (length (_blocks (_blockchain p))).
Proof.
  intros Hreach. destruct (reachable_appended p Hreach) as [n Hn].
  destruct (appended_heights n _ Hn) as [Hlen Hhs].
  unfold Blockchain.length in Hlen. apply Nat2Z.inj in Hlen.
  rewrite Hlen. exact Hhs.
Qed.

Lemma kept_cons tx txs (b : bool) bs :
  kept (tx :: txs) (b :: bs) = if b then tx :: kept txs bs else kept txs bs.
Proof.
  unfold kept. cbn [zip zip_with]. rewrite filter_cons. cbn [snd].
  destruct b.
  - rewrite decide_True by reflexivity. reflexivity.
  - rewrite decide_False by discriminate. reflexivity.
Qed.

Lemma deliveries_keep txs p bs p' :
  for_each Period.deliver_tx txs p = (Return bs, p') ->
  length bs = length txs /\
  _current_header (_block_builder p') = _current_header (_block_builder p) /\
  _current_transactions (_block_builder p')
  = _current_transactions (_block_builder p) ++ kept txs bs /\
  _blockchain p' = _blockchain p /\
  _block_construction_phase p' = _block_construction_phase p /\
  length (_previous_rounds p') = length (_previous_rounds p) /\
  length (_round_results p') = length (_round_results p) /\
  (is_Some (_current_round p) -> is_Some (_current_round p')).
Proof.
  revert p bs. induction txs as [|tx txs IH]; intros p bs Hrun.
  - cbn in Hrun. injection Hrun as <- <-. rewrite app_nil_r. repeat split; auto.
  - cbn [for_each] in Hrun. unfold bind at 1 in Hrun.
    destruct (deliver_tx_cases p tx)
      as [Hd|[[e Hd]|(r & r' & _ & _ & [Hd|[e Hd]])]]; rewrite Hd in Hrun;
      try discriminate.
    + unfold bind at 1 in Hrun.
      destruct (for_each Period.deliver_tx txs p) as [[bs'|e] p1] eqn:Hrest;
        [|discriminate].
      injection Hrun as <- <-. destruct (IH p bs' Hrest) as (Hl & Hrest').
      rewrite kept_cons. cbn [length]. split; [lia|exact Hrest'].
    + unfold bind at 1 in Hrun.
      match type of Hrun with
      | context [for_each _ _ ?q] =>
          destruct (for_each Period.deliver_tx txs q) as [[bs'|e] p1] eqn:Hrest;
            [|discriminate]
      end.
      injection Hrun as <- <-.
      destruct (IH _ bs' Hrest) as (Hl & Hh & Ht & Hc & Hph & Hpr & Hrs & Hr).
      rewrite kept_cons. cbn [length].
      split; [lia|]. split; [exact Hh|]. split.
      { rewrite Ht. cbn. rewrite <- app_assoc. reflexivity. }
      split; [exact Hc|]. split; [exact Hph|]. split; [exact Hpr|].
      split; [exact Hrs|]. intros _. apply Hr. cbn. eauto.
Qed.

(** X7. A run of deliveries that all return leaves in the builder, after
    the transactions that it held, exactly the delivered transactions for
    which [deliver_tx] returned true, in the order of their delivery; the
    header of the builder, the chain and the phase are as before, and the
    histories are as long as before. *)
Theorem deliveries_keep_the_accepted txs p bs p' :
  for_each Period.deliver_tx txs p = (Return bs, p') ->
  length bs = length txs /\
  _block_builder p'
  = {| _current_header := _current_header (_block_builder p);
       _current_transactions :=
         _current_transactions (_block_builder p) ++ kept txs bs |} /\
  _blockchain p' = _blockchain p /\
  _block_construction_phase p' = _block_construction_phase p /\
  length (_previous_rounds p') = length (_previous_rounds p) /\
  length (_round_results p') = length (_round_results p).
Proof.
  intros Hrun.
  destruct (deliveries_keep txs p bs p' Hrun) as (Hl & Hh & Ht & Hc & Hph & Hpr & Hrs & _).
  split; [exact Hl|]. split; [|auto].
  destruct (_block_builder p'). cbn in Hh, Ht. rewrite Hh, Ht. reflexivity.
Qed.

(** X8. A whole block: from a period that waits for a block and has a
    current round, [begin_block] with the header of the expected height,
    deliveries that all return, [end_block] and [commit] all succeed, the
    chain gains the block of that header with exactly the accepted
    transactions in order, and the period waits for the next block. *)
Theorem block_cycle_commits_the_accepted p r header txs bs p2 :
  _block_construction_phase p = WAITING_FOR_BEGIN_BLOCK ->
  _current_round p = Some r ->
  custom_types.height header = Blockchain.height (_blockchain p) ->
  for_each Period.deliver_tx txs (Period.begin_block header p).2 = (Return bs, p2) ->
  (Period.begin_block header p).1 = Return tt /\
  exists p4,
    (Period.end_block ;;; Period.commit) p2 = (Return tt, p4) /\
    _blocks (_blockchain p4)
    = _blocks (_blockchain p) ++ [Build_Block header (kept txs bs)] /\
    _block_construction_phase p4 = WAITING_FOR_BEGIN_BLOCK.
Proof.
  intros Hph Hr Hheight Hrun.
  assert (Hfin : Period.is_finished p = false)
    by (unfold Period.is_finished; rewrite Hr; reflexivity).
  rewrite (begin_block_accepted p header Hfin Hph) in *. cbn [fst snd] in *.
  split; [reflexivity|].
  destruct (deliveries_keep _ _ _ _ Hrun) as (_ & Hh & Ht & Hc & Hph2 & _ & _ & Hr2).
  cbn in Hh, Ht, Hc, Hph2, Hr2.
  destruct Hr2 as [r2 Hr2]; [rewrite Hr; eauto|].
  unfold bind. rewrite (end_block_accepted p2 Hph2).
  destruct (commit_appends (Period.set_block_construction_phase WAITING_FOR_COMMIT p2)
              r2 header eq_refl Hr2 Hh) as (p4 & Hc4 & Hph4 & _ & Hb4 & _).
  { cbn. rewrite Hc. exact Hheight. }
  exists p4. split; [exact Hc4|]. split; [|exact Hph4].
  rewrite Hb4. cbn. rewrite Hc, Ht. reflexivity.
Qed.

(** X9. A finished period that a program can hold refuses every entry
    point: each call raises and leaves the period as it was. *)
Theorem finished_period_refuses_everything p ep header tx :
  reachable p ->
  Period.is_finished p = true ->
  call ep header tx p
  = (Raise (match ep with BEGIN_BLOCK => period_finished | _ => phase_mismatch ep end),
     p) /\
  Period.check_is_finished p
  = (Raise (ValueError "period is finished, cannot accept new transactions"), p) /\
  Period.current_round_id p = None.
Proof.
  intros Hreach Hfin.
  assert (Hph : _block_construction_phase p = WAITING_FOR_BEGIN_BLOCK).
  { destruct (reachable_round_while_in_block p Hreach) as [?|[r Hr]]; [done|].
    unfold Period.is_finished in Hfin. rewrite Hr in Hfin. discriminate. }
  split; [|split].
  - destruct ep; unfold call.
    + apply begin_block_finished, Hfin.
    + unfold bind. rewrite deliver_tx_mismatch by (rewrite Hph; discriminate).
      reflexivity.
    + apply end_block_mismatch. rewrite Hph. discriminate.
    + apply commit_mismatch. rewrite Hph. discriminate.
  - unfold Period.check_is_finished, bind, get, raise. rewrite Hfin. reflexivity.
  - unfold Period.current_round_id. unfold Period.is_finished in Hfin.
    destruct (_current_round p); [discriminate|reflexivity].
Qed.

(** X10. When the round ends at a [commit] that appends its block, the
    round is appended to the previous rounds, its result becomes the latest
    result and the next round the current one; with no next round the
    period is finished, so that the next [begin_block] raises.  When the
    round does not end, the round and the latest result stay. *)
Theorem commit_installs_the_next_round p r header :
  _block_construction_phase p = WAITING_FOR_COMMIT ->
  _current_round p = Some r ->
  _current_header (_block_builder p) = Some header ->
  custom_types.height header = Blockchain.height (_blockchain p) ->
  (Period.commit p).1 = Return tt /\
  match AbstractRound.end_block r with
  | Some (round_result, next_round) =>
      Period.latest_result (Period.commit p).2 = Some round_result /\
      _current_round (Period.commit p).2 = next_round /\
      _previous_rounds (Period.commit p).2 = _previous_rounds p ++ [r] /\
      (next_round = None ->
       forall header',
         Period.begin_block header' (Period.commit p).2
         = (Raise period_finished, (Period.commit p).2))
  | None =>
      Period.latest_result (Period.commit p).2 = Period.latest_result p /\
      _current_round (Period.commit p).2 = Some r /\
      _previous_rounds (Period.commit p).2 = _previous_rounds p
  end.
Proof.
  intros Hph Hr Hh Heq.
  destruct (commit_appends p r header Hph Hr Hh Heq) as (p' & -> & _ & _ & _ & Hend).
  cbn [fst snd]. split; [reflexivity|].
  destruct (AbstractRound.end_block r) as [[round_result next_round]|].
  - destruct Hend as (Hr' & Hprev & Hres). split; [|split; [exact Hr'|split; [exact Hprev|]]].
    + unfold Period.latest_result. rewrite Hres, length_app, last_snoc.
      cbn [length]. rewrite Nat.add_1_r. reflexivity.
    + intros -> header'. apply begin_block_finished.
      unfold Period.is_finished. rewrite Hr'. reflexivity.
  - destruct Hend as (Hr' & Hprev & Hres). split; [|split; assumption].
    unfold Period.latest_result. rewrite Hres. reflexivity.
Qed.

(** X11. A transaction whose tag the current round has no checker for is
    not recognised: [deliver_tx] returns false and the period is as it
    was. *)
Theorem deliver_tx_unrecognised p r tx :
  _block_construction_phase p = WAITING_FOR_DELIVER_TX ->
  _current_round p = Some r ->
  getattr_checker r ("check_" +:+ value (transaction_type (payload tx))) = None ->
  AbstractRound.check_transaction r tx = false /\
  Period.deliver_tx tx p = (Return false, p).
Proof.
  intros Hph Hr Hnone.
  assert (Hcheck : AbstractRound.check_transaction r tx = false)
    by (unfold AbstractRound.check_transaction; rewrite Hnone; reflexivity).
  split; [exact Hcheck|]. apply (deliver_tx_rejected p r tx Hph Hr Hcheck).
Qed.

End PeriodTraces.

Lemma reachable_period_in_block : reachable Examples.period_in_block.
Proof.
  exact (reachable_call _ BEGIN_BLOCK (Build_Header 1) (Examples.tx_ping "alice")
           (reachable_setup _ [] (reachable_init Examples.RegistrationRound))).
Qed.

Lemma reachable_deliveries {R Res Args : Type} `{!AbstractRound R Res}
    (txs : list Transaction) (p : Period R Res Args) :
  reachable p -> reachable (for_each Period.deliver_tx txs p).2.
Proof.
  revert p. induction txs as [|tx txs IH]; intros p Hreach; [exact Hreach|].
  cbn [for_each]. unfold bind at 1.
  pose proof (reachable_call p DELIVER_TX (Build_Header 0) tx Hreach) as Hstep.
  unfold call, bind, ret in Hstep.
  destruct (Period.deliver_tx tx p) as [[b|e] p1]; [|exact Hstep].
  cbn [snd] in Hstep. specialize (IH p1 Hstep). unfold bind.
  destruct (for_each Period.deliver_tx txs p1) as [[bs|e] p2]; exact IH.
Qed.

Lemma commit_returns_or_AddBlockError_witness :
  let p := (Period.end_block Examples.period_in_block).2 in
  (exists p',
      Period.commit p = (Return tt, p') /\
      _block_construction_phase p' = WAITING_FOR_BEGIN_BLOCK /\
      length (_blocks (_blockchain p')) = S (length (_blocks (_blockchain p)))) \/
  (exists msg, Period.commit p = (Raise (AddBlockError msg), p)).
Proof.
  intros p. apply (commit_returns_or_AddBlockError p); [|reflexivity].
  exact (reachable_call _ END_BLOCK (Build_Header 1) (Examples.tx_ping "alice")
           reachable_period_in_block).
Defined.

Lemma histories_grow_together_witness :
  let txs := [Examples.tx_registration "alice"; Examples.tx_registration "bob"] in
  let p := (Period.commit
              (Period.end_block
                 (for_each Period.deliver_tx txs Examples.period_in_block).2).2).2 in
  length (_previous_rounds p) = length (_round_results p) /\
  _round_results p = [2].
Proof.
  intros txs p. split; [|reflexivity].
  apply (proj2 histories_grow_together p).
  apply (reachable_call _ COMMIT (Build_Header 1) (Examples.tx_ping "alice")).
  apply (reachable_call _ END_BLOCK (Build_Header 1) (Examples.tx_ping "alice")).
  apply reachable_deliveries, reachable_period_in_block.
Defined.

Lemma chain_changes_in_commit_only_witness :
  _blockchain (call DELIVER_TX (Build_Header 1) (Examples.tx_registration "alice")
                 Examples.period_in_block).2
  = _blockchain Examples.period_in_block.
Proof.
  destruct (@chain_changes_in_commit_only Examples.ExampleRound Z (list string) _)
    as (_ & Hcall & _).
  apply Hcall. discriminate.
Defined.

Lemma reachable_chain_heights_witness :
  let p := (Period.commit (Period.end_block Examples.period_in_block).2).2 in
  heights (_blockchain p) = [1].
Proof.
  intros p. apply (reachable_chain_heights p).
  apply (reachable_call _ COMMIT (Build_Header 1) (Examples.tx_ping "alice")).
  apply (reachable_call _ END_BLOCK (Build_Header 1) (Examples.tx_ping "alice")).
  exact reachable_period_in_block.
Defined.

Lemma deliveries_keep_the_accepted_witness :
  let txs := [Examples.tx_registration "alice"; Examples.tx_registration "alice";
              Examples.tx_ping "carol" ; Examples.tx_registration "bob"] in
  let txs' := [Examples.tx_registration "alice"; Examples.tx_registration "alice";
               Examples.tx_registration "bob"] in
  (for_each Period.deliver_tx txs Examples.period_in_block).1
  = Raise (ValueError "request not recognized") /\
  _current_transactions
    (_block_builder (for_each Period.deliver_tx txs' Examples.period_in_block).2)
  = [Examples.tx_registration "alice"; Examples.tx_registration "bob"].
Proof.
  intros txs txs'. split; [vm_compute; reflexivity|].
  destruct (deliveries_keep_the_accepted txs' Examples.period_in_block
              [true; false; true]
              (for_each Period.deliver_tx txs' Examples.period_in_block).2)
    as (_ & Hb & _); [vm_compute; reflexivity|].
  rewrite Hb. reflexivity.
Defined.

Lemma block_cycle_commits_the_accepted_witness :
  let txs := [Examples.tx_registration "alice"; Examples.tx_registration "alice";
              Examples.tx_registration "bob"] in
  let p := (Period.setup [] Examples.new_period).2 in
  let p2 := (for_each Period.deliver_tx txs (Period.begin_block (Build_Header 1) p).2).2 in
  exists p4,
    (Period.end_block ;;; Period.commit) p2 = (Return tt, p4) /\
    _blocks (_blockchain p4)
    = [Build_Block (Build_Header 1)
         [Examples.tx_registration "alice"; Examples.tx_registration "bob"]].
Proof.
  intros txs p p2.
  destruct (block_cycle_commits_the_accepted p (Examples.RegistrationRound [])
              (Build_Header 1) txs [true; false; true] p2)
    as (_ & p4 & Hrun & Hblocks & _);
    [reflexivity|reflexivity|reflexivity|vm_compute; reflexivity|].
  exists p4. split; [exact Hrun|exact Hblocks].
Defined.

Lemma finished_period_refuses_everything_witness :
  call COMMIT (Build_Header 1) (Examples.tx_ping "alice") Examples.new_period
  = (Raise (ValueError "cannot accept a 'commit' request."), Examples.new_period) /\
  call BEGIN_BLOCK (Build_Header 1) (Examples.tx_ping "alice") Examples.new_period
  = (Raise (ValueError "period is finished, cannot accept new blocks"),
     Examples.new_period).
Proof.
  split.
  - apply (finished_period_refuses_everything Examples.new_period COMMIT);
      [apply reachable_init|reflexivity].
  - apply (finished_period_refuses_everything Examples.new_period BEGIN_BLOCK);
      [apply reachable_init|reflexivity].
Defined.

Lemma commit_installs_the_next_round_witness :
  let txs := [Examples.tx_registration "alice"; Examples.tx_registration "bob"] in
  let p := (Period.end_block
              (for_each Period.deliver_tx txs Examples.period_in_block).2).2 in
  Period.latest_result (Period.commit p).2 = Some 2 /\
  _current_round (Period.commit p).2 = Some Examples.FinalRound /\
  _previous_rounds (Period.commit p).2 = [Examples.RegistrationRound ["alice"; "bob"]].
Proof.
  intros txs p.
  destruct (commit_installs_the_next_round p
              (Examples.RegistrationRound ["alice"; "bob"]) (Build_Header 1))
    as (_ & Hend); [vm_compute; reflexivity..|].
  destruct Hend as (Hlatest & Hround & Hprev & _).
  split; [exact Hlatest|]. split; [exact Hround|exact Hprev].
Defined.

Lemma deliver_tx_unrecognised_witness :
  let tx := {| payload :=
                 {| payload_class := "VotePayload";
                    transaction_type := {| value := "vote"; __str__ := "vote" |};
                    sender := "alice";
                    data := {[ "vote" := VBool true ]} |};
               signature := "sig" |} in
  Period.deliver_tx tx Examples.period_in_block
  = (Return false, Examples.period_in_block).
Proof.
  intros tx.
  apply (deliver_tx_unrecognised Examples.period_in_block
           (Examples.RegistrationRound []) tx); reflexivity.
Defined.

(** ** The payload registry, further *)

Section RegistryFurther.
Import _MetaPayload.

(** X12. [_get_field] returns what the class binds the field to, [None]
    included, and raises [AttributeError] when the class binds nothing to
    it; its own [ValueError] is never raised. *)
Theorem get_field_returns_or_AttributeError (cls : PyClass) (name : string) :
  match class_attrs cls !! name with
  | Some v => _get_field cls name = Return v
  | None => _get_field cls name = Raise (AttributeError name)
  end /\
  forall msg, _get_field cls name <> Raise (ValueError msg).
Proof.
  destruct (class_attrs cls !! name) as [v|] eqn:Hv.
  - rewrite (get_field_present _ _ _ Hv). split; [reflexivity|discriminate].
  - rewrite (get_field_missing _ _ Hv). split; [reflexivity|discriminate].
Qed.

Lemma new_skipped (reg : Registry) (cls : PyClass) :
  String.prefix "packages." (__module__ cls) = true \/ "ABC" ∈ __bases__ cls ->
  __new__ cls reg = (Return cls, reg).
Proof.
  intros Hskip. unfold __new__.
  destruct (String.prefix "packages." (__module__ cls)); [reflexivity|].
  destruct Hskip as [?|Habc]; [discriminate|].
  rewrite bool_decide_eq_true_2 by exact Habc. reflexivity.
Qed.

Lemma new_not_payload (reg : Registry) (cls : PyClass) :
  String.prefix "packages." (__module__ cls) = false ->
  "ABC" ∉ __bases__ cls ->
  "BaseTxPayload" ∉ __mro__ cls ->
  __new__ cls reg
  = (Raise (ValueError ("class " +:+ __name__ cls
                        +:+ " must inherit from BaseTxPayload")), reg).
Proof.
  intros Hmod Habc Hsub. unfold __new__, issubclass_BaseTxPayload.
  rewrite Hmod, !bool_decide_eq_false_2 by done. reflexivity.
Qed.

(** The outcomes of [__new__], for any class and registry. *)
Lemma new_cases (reg : Registry) (cls : PyClass) :
  (exists o, __new__ cls reg = (o, reg)) \/
  (exists tag,
      registered_on_definition cls /\
      reg !! tag = None /\
      __new__ cls reg = (Return cls, <[tag := cls]> reg)).
Proof.
  destruct (String.prefix "packages." (__module__ cls)) eqn:Hmod.
  { left. eexists. apply new_skipped. left. exact Hmod. }
  destruct (decide ("ABC" ∈ __bases__ cls)) as [Habc|Habc].
  { left. eexists. apply new_skipped. right. exact Habc. }
  destruct (decide ("BaseTxPayload" ∈ __mro__ cls)) as [Hsub|Hsub];
    [|left; eexists; apply new_not_payload; assumption].
  assert (Hreg : registered_on_definition cls) by (split; [|split]; assumption).
  destruct (class_attrs cls !! "transaction_type") as [v|] eqn:Hv.
  - rewrite (new_registers reg cls v Hreg Hv).
    destruct (reg !! tag_str v) as [prev|] eqn:Hprev.
    + left. destruct (decide (cls = prev)) as [->|Hne].
      * rewrite (validate_same _ _ _ Hprev). eexists. f_equal.
        apply insert_id, Hprev.
      * rewrite (validate_other _ _ _ _ Hprev Hne). eexists. reflexivity.
    + right. exists (tag_str v). rewrite (validate_free _ _ _ Hprev). auto.
  - left. eexists. unfold __new__, issubclass_BaseTxPayload.
    rewrite Hmod, bool_decide_eq_false_2, bool_decide_eq_true_2 by done.
    cbn [negb]. rewrite (get_field_missing _ _ Hv). reflexivity.
Qed.

(** X13. The registry only grows: making a class leaves the registry as it
    was or binds one tag that was not bound to the new class; no entry is
    removed and no tag is bound to another class than before. *)
Theorem registry_only_grows (reg : Registry) (cls : PyClass) :
  ((__new__ cls reg).2 = reg \/
   exists tag, reg !! tag = None /\ (__new__ cls reg).2 = <[tag := cls]> reg) /\
  (forall tag prev, reg !! tag = Some prev -> (__new__ cls reg).2 !! tag = Some prev).
Proof.
  destruct (new_cases reg cls) as [[o ->]|(tag & _ & Hfree & ->)]; cbn [snd].
  - split; [left; reflexivity|auto].
  - split; [right; eauto|]. intros tag' prev Hprev.
    rewrite lookup_insert_ne; [exact Hprev|]. intros ->. congruence.
Qed.

(** X14. A class that is abstract ([ABC] among its direct bases) or comes
    from a module under [packages.] is made and never registered, whatever
    it binds [transaction_type] to and whatever the registry holds; a class
    that is neither and does not inherit from [BaseTxPayload] makes
    [__new__] raise, the registry staying as it was. *)
Theorem new_skips_or_rejects (reg : Registry) (cls : PyClass) :
  (String.prefix "packages." (__module__ cls) = true \/ "ABC" ∈ __bases__ cls ->
   __new__ cls reg = (Return cls, reg)) /\
  (String.prefix "packages." (__module__ cls) = false ->
   "ABC" ∉ __bases__ cls ->
   "BaseTxPayload" ∉ __mro__ cls ->
   __new__ cls reg
   = (Raise (ValueError ("class " +:+ __name__ cls
                         +:+ " must inherit from BaseTxPayload")), reg)).
Proof. split; [apply new_skipped|apply new_not_payload]. Qed.

(** X15. Registration and lookup fit together: once a class has been made
    and registered under its tag, [from_json] on a dictionary with that tag
    finds the class and passes it the other entries of the dictionary; the
    lookup leaves the registry as it was. *)
Theorem registered_class_is_found
    (reg : Registry) (cls : PyClass) (v : TagValue)
    (obj : gmap string PyVal) (w : PyVal) :
  registered_on_definition cls ->
  class_attrs cls !! "transaction_type" = Some v ->
  (reg !! tag_str v = None \/ reg !! tag_str v = Some cls) ->
  obj !! "transaction_type" = Some w ->
  py_str w = tag_str v ->
  __new__ cls reg = (Return cls, <[tag_str v := cls]> reg) /\
  from_json obj (__new__ cls reg).2
  = (Return (cls, delete "transaction_type" obj), (__new__ cls reg).2).
Proof.
  intros Hreg Hv Hfree Hw Hstr.
  assert (Hnew : __new__ cls reg = (Return cls, <[tag_str v := cls]> reg)).
  { rewrite (new_registers reg cls v Hreg Hv).
    destruct Hfree as [Hnone|Hsame].
    - rewrite (validate_free _ _ _ Hnone). reflexivity.
    - rewrite (validate_same _ _ _ Hsame). reflexivity. }
  split; [exact Hnew|]. rewrite Hnew. cbn [snd].
  unfold from_json, bind, get, ret. rewrite Hw, Hstr, lookup_insert_eq. reflexivity.
Qed.

(** X16. A class that binds [transaction_type] to [None] passes the guard
    of [_get_field] and is registered under the tag ["None"]. *)
Theorem None_tag_is_registered (reg : Registry) (cls : PyClass) :
  registered_on_definition cls ->
  class_attrs cls !! "transaction_type" = Some (TagVal VNone) ->
  reg !! "None" = None ->
  __new__ cls reg = (Return cls, <["None" := cls]> reg).
Proof.
  intros Hreg Hv Hfree.
  rewrite (new_registers reg cls (TagVal VNone) Hreg Hv).
  change (tag_str (TagVal VNone)) with "None".
  rewrite (validate_free _ _ _ Hfree). reflexivity.
Qed.

End RegistryFurther.

Lemma get_field_returns_or_AttributeError_witness :
  _MetaPayload._get_field Examples.UntaggedPayload "transaction_type"
  = Raise (AttributeError "transaction_type") /\
  _MetaPayload._get_field Examples.UntaggedPayload "transaction_type"
  <> Raise (ValueError "class must set the class field").
Proof.
  destruct (get_field_returns_or_AttributeError Examples.UntaggedPayload
              "transaction_type") as [Hget Hnever].
  split; [exact Hget|apply Hnever].
Defined.

Lemma registry_only_grows_witness :
  let reg : gmap string PyClass := {[ "registration" := Examples.RegistrationPayload ]} in
  (_MetaPayload.__new__ Examples.OtherPayload reg).2 !! "registration"
  = Some Examples.RegistrationPayload.
Proof.
  intros reg.
  apply (proj2 (registry_only_grows reg Examples.OtherPayload)). reflexivity.
Defined.

Lemma new_skips_or_rejects_witness :
  let reg : gmap string PyClass := {[ "registration" := Examples.RegistrationPayload ]} in
  let abstract_cls :=
    {| class_id := 5; __name__ := "AbstractPayload"; __module__ := "app.payloads";
       __bases__ := ["BaseTxPayload"; "ABC"];
       __mro__ := ["AbstractPayload"; "BaseTxPayload"; "ABC"; "object"];
       class_attrs := {[ "transaction_type" := TagVal (VStr "registration") ]} |} in
  let other_cls :=
    {| class_id := 6; __name__ := "Unrelated"; __module__ := "app.payloads";
       __bases__ := ["object"]; __mro__ := ["Unrelated"; "object"];
       class_attrs := ∅ |} in
  _MetaPayload.__new__ abstract_cls reg = (Return abstract_cls, reg) /\
  _MetaPayload.__new__ other_cls reg
  = (Raise (ValueError "class Unrelated must inherit from BaseTxPayload"), reg).
Proof.
  intros reg abstract_cls other_cls. split.
  - apply (new_skips_or_rejects reg abstract_cls). right. compute_done.
  - apply (new_skips_or_rejects reg other_cls); [reflexivity|compute_done..].
Defined.

Lemma registered_class_is_found_witness :
  let obj : gmap string PyVal :=
    {[ "transaction_type" := VStr "registration"; "sender" := VStr "alice" ]} in
  _MetaPayload.from_json obj (_MetaPayload.__new__ Examples.RegistrationPayload ∅).2
  = (Return (Examples.RegistrationPayload, delete "transaction_type" obj),
     (_MetaPayload.__new__ Examples.RegistrationPayload ∅).2).
Proof.
  intros obj.
  apply (registered_class_is_found ∅ Examples.RegistrationPayload
           (TagVal (VStr "registration")) obj (VStr "registration"));
    [unfold registered_on_definition; compute_done|reflexivity|left; reflexivity
    |reflexivity|reflexivity].
Defined.

Lemma None_tag_is_registered_witness :
  let cls :=
    {| class_id := 7; __name__ := "NoTagPayload"; __module__ := "app.payloads";
       __bases__ := ["BaseTxPayload"];
       __mro__ := ["NoTagPayload"; "BaseTxPayload"; "ABC"; "object"];
       class_attrs := {[ "transaction_type" := TagVal VNone ]} |} in
  _MetaPayload.__new__ cls ∅ = (Return cls, {[ "None" := cls ]}).
Proof.
  intros cls.
  apply (None_tag_is_registered ∅ cls);
    [unfold registered_on_definition; compute_done|reflexivity|reflexivity].
Defined.

(** ** Payloads and transactions, further *)

Lemma py_eq_sym (a b : PyVal) : py_eq a b = py_eq b a.
Proof.
  destruct a as [|x|x|x], b as [|y|y|y]; cbn; try reflexivity.
  - destruct x, y; reflexivity.
  - apply Z.eqb_sym.
  - apply bool_decide_ext. split; congruence.
Qed.

Lemma dict_eq_sym (d1 d2 : gmap string PyVal) : dict_eq d1 d2 = dict_eq d2 d1.
Proof.
  unfold dict_eq. f_equal. apply bool_decide_ext.
  assert (Hflip : forall (x y : gmap string PyVal) k,
             merge (fun a b => match a, b with
                               | Some a, Some b => Some (py_eq a b)
                               | None, None => None
                               | _, _ => Some false
                               end) x y !! k
             = merge (fun a b => match a, b with
                                 | Some a, Some b => Some (py_eq a b)
                                 | None, None => None
                                 | _, _ => Some false
                                 end) y x !! k).
  { intros x y k. rewrite !lookup_merge.
    destruct (x !! k), (y !! k); cbn; try reflexivity. f_equal. apply py_eq_sym. }
  split; intros Hall k ok Hk; apply (Hall k); [rewrite Hflip|rewrite <- Hflip]; exact Hk.
Qed.

Lemma payload_eq_on_payloads (p q : BaseTxPayload) :
  BaseTxPayload_eq p (OPayload q)
  = Return (bool_decide (sender p = sender q) && dict_eq (data p) (data q)).
Proof.
  unfold BaseTxPayload_eq. cbn.
  destruct (bool_decide (sender p = sender q)); reflexivity.
Qed.

(** X17. On payloads the equality never raises, is reflexive and is
    symmetric. *)
Theorem BaseTxPayload_eq_reflexive_symmetric (p q : BaseTxPayload) :
  BaseTxPayload_eq p (OPayload p) = Return true /\
  BaseTxPayload_eq p (OPayload q) = BaseTxPayload_eq q (OPayload p) /\
  exists b, BaseTxPayload_eq p (OPayload q) = Return b.
Proof.
  rewrite !payload_eq_on_payloads. split; [|split].
  - rewrite bool_decide_eq_true_2 by reflexivity. rewrite dict_eq_refl. reflexivity.
  - rewrite (dict_eq_sym (data p) (data q)).
    do 2 f_equal. apply bool_decide_ext. split; congruence.
  - eauto.
Qed.

Lemma transaction_eq_on_transactions (s t : Transaction) :
  Transaction_eq s (ATransaction t)
  = Return (bool_decide (sender (payload s) = sender (payload t))
            && dict_eq (data (payload s)) (data (payload t))
            && bool_decide (signature s = signature t)).
Proof.
  unfold Transaction_eq. rewrite payload_eq_on_payloads.
  destruct (bool_decide (sender (payload s) = sender (payload t))
            && dict_eq (data (payload s)) (data (payload t))); reflexivity.
Qed.

(** X18. The equality of transactions never raises: against anything that
    is not a transaction it is false, and on two transactions it is the
    conjunction of the equality of the senders, of the data and of the
    signatures; it is reflexive and symmetric, and the class and the
    transaction type of the payloads play no part. *)
Theorem Transaction_eq_total_symmetric (s t : Transaction) (o : PyObject) :
  Transaction_eq s (ANotTransaction o) = Return false /\
  Transaction_eq s (ATransaction t)
  = Return (bool_decide (sender (payload s) = sender (payload t))
            && dict_eq (data (payload s)) (data (payload t))
            && bool_decide (signature s = signature t)) /\
  Transaction_eq s (ATransaction s) = Return true /\
  Transaction_eq s (ATransaction t) = Transaction_eq t (ATransaction s).
Proof.
  split; [reflexivity|]. split; [apply transaction_eq_on_transactions|]. split.
  - rewrite transaction_eq_on_transactions, dict_eq_refl.
    rewrite !bool_decide_eq_true_2 by reflexivity. reflexivity.
  - rewrite !transaction_eq_on_transactions.
    rewrite (dict_eq_sym (data (payload s)) (data (payload t))).
    f_equal. f_equal; [f_equal|]; apply bool_decide_ext; split; congruence.
Qed.

(** X19. The dictionary of a payload and its decoding fit together: when
    the data of the payload has no entry named [transaction_type] or
    [sender], [json] returns the data with these two entries added, and
    [from_json] on it finds the class registered under the tag and passes
    it the sender and the data; when the data has such an entry, [json]
    raises [TypeError]. *)
Theorem json_from_json (reg : gmap string PyClass) (cls : PyClass) (p : BaseTxPayload) :
  (data p !! "transaction_type" = None ->
   data p !! "sender" = None ->
   reg !! __str__ (transaction_type p) = Some cls ->
   exists obj,
     BaseTxPayload_json p = Return obj /\
     obj !! "transaction_type" = Some (VStr (__str__ (transaction_type p))) /\
     obj !! "sender" = Some (VStr (sender p)) /\
     (forall k, k <> "transaction_type" -> k <> "sender" -> obj !! k = data p !! k) /\
     _MetaPayload.from_json obj reg
     = (Return (cls, <["sender" := VStr (sender p)]> (data p)), reg)) /\
  (is_Some (data p !! "transaction_type") \/ is_Some (data p !! "sender") ->
   BaseTxPayload_json p
   = Raise (TypeError "dict() got multiple values for keyword argument")).
Proof.
  split.
  - intros Htype Hsender Hcls. unfold BaseTxPayload_json.
    rewrite bool_decide_eq_false_2
      by (rewrite Htype, Hsender; intros [[? ?]|[? ?]]; discriminate).
    eexists. split; [reflexivity|]. split; [apply lookup_insert_eq|]. split.
    { rewrite lookup_insert_ne by discriminate. apply lookup_insert_eq. }
    split.
    { intros k Hk1 Hk2. rewrite !lookup_insert_ne by congruence. reflexivity. }
    unfold _MetaPayload.from_json, bind, get, ret.
    rewrite lookup_insert_eq. cbn [py_str]. rewrite Hcls.
    rewrite delete_insert_eq. do 3 f_equal.
    apply delete_id. rewrite lookup_insert_ne by discriminate. exact Htype.
  - intros Hdup. unfold BaseTxPayload_json.
    rewrite bool_decide_eq_true_2 by exact Hdup. reflexivity.
Qed.

Lemma json_from_json_witness :
  let p := {| payload_class := "RegistrationPayload";
              transaction_type := {| value := "registration"; __str__ := "registration" |};
              sender := "alice";
              data := {[ "weight" := VInt 3 ]} |} in
  let bad := {| payload_class := "RegistrationPayload";
                transaction_type := {| value := "registration"; __str__ := "registration" |};
                sender := "alice";
                data := {[ "sender" := VStr "bob" ]} |} in
  let reg : gmap string PyClass := {[ "registration" := Examples.RegistrationPayload ]} in
  (exists obj,
      BaseTxPayload_json p = Return obj /\
      _MetaPayload.from_json obj reg
      = (Return (Examples.RegistrationPayload,
                 {[ "sender" := VStr "alice"; "weight" := VInt 3 ]}), reg)) /\
  BaseTxPayload_json bad
  = Raise (TypeError "dict() got multiple values for keyword argument").
Proof.
  intros p bad reg. split.
  - destruct (json_from_json reg Examples.RegistrationPayload p) as [Hok _].
    destruct Hok as (obj & Hjson & _ & _ & _ & Hfrom); [reflexivity..|].
    exists obj. split; [exact Hjson|exact Hfrom].
  - apply (json_from_json reg Examples.RegistrationPayload bad).
    right. compute_done.
Defined.

(** ** ConsensusParams, further *)

(** X20. Below [3 * 2 ^ 51] participants the threshold is the exact
    ceiling of two thirds of their number; so, for at least one
    participant, it is at most the number of participants, and any two
    sets of participants of the size of the threshold have a participant
    in common. *)
Theorem two_thirds_threshold_is_a_quorum (n : Z) :
  0 <= n < 3 * 2 ^ 51 ->
  exists t,
    ConsensusParams.two_thirds_threshold {| _max_participants := n |} = Return t /\
    t = ceil_div (2 * n) 3 /\
    2 * n <= 3 * t < 2 * n + 3 /\
    t <= n /\
    (1 <= n -> n < 2 * t).
Proof.
  intros Hn. exists (ceil_div (2 * n) 3).
  split; [apply two_thirds_threshold_exact, Hn|]. split; [reflexivity|].
  unfold ceil_div.
  pose proof (Z.div_mod (- (2 * n)) 3 ltac:(lia)) as Hdm.
  pose proof (Z.mod_pos_bound (- (2 * n)) 3 ltac:(lia)) as Hr.
  lia.
Qed.

Lemma two_thirds_threshold_is_a_quorum_witness :
  exists t,
    ConsensusParams.two_thirds_threshold {| _max_participants := 10 |} = Return t /\
    t = 7.
Proof.
  destruct (two_thirds_threshold_is_a_quorum 10) as (t & Ht & Hceil & _);
    [split; [lia|reflexivity]|].
  exists t. split; [exact Ht|]. rewrite Hceil. reflexivity.
Defined.

(** ** BasePeriodState, further *)

Section PeriodStateFurther.
Import BasePeriodState.

Lemma items_get_head (p : string) (v : FieldVal) (l : list (string * FieldVal)) :
  items_get (("_" +:+ p, v) :: l) ("_" +:+ p) = Some v.
Proof. cbn [items_get]. rewrite String.eqb_refl. reflexivity. Qed.

Lemma items_get_tail (p k : string) (v : FieldVal) (l : list (string * FieldVal)) :
  p <> k -> items_get (("_" +:+ p, v) :: l) ("_" +:+ k) = items_get l ("_" +:+ k).
Proof.
  intros Hne. cbn [items_get].
  destruct (String.eqb_spec ("_" +:+ p) ("_" +:+ k)) as [E|_]; [|reflexivity].
  apply underscore_inj in E. congruence.
Qed.

Lemma items_as_fields (ps : list string) (l : list (string * FieldVal)) :
  NoDup ps -> l.*1 = (fun p => "_" +:+ p) <$> ps ->
  l = (fun p => ("_" +:+ p, default FNone (items_get l ("_" +:+ p)))) <$> ps.
Proof.
  revert l. induction ps as [|p ps IH]; intros [|[key v] l] Hnd Hkeys;
    try discriminate; [reflexivity|].
  cbn in Hkeys. injection Hkeys as -> Hkeys.
  apply NoDup_cons in Hnd as [Hp Hnd].
  cbn [fmap list_fmap]. rewrite items_get_head. cbn [default]. f_equal.
  rewrite (IH l Hnd Hkeys) at 1. apply Forall_fmap_ext_1, Forall_forall.
  intros k Hk. rewrite items_get_tail; [reflexivity|]. intros ->. done.
Qed.

(** The object that [update] makes. *)
Lemma update_result (store : Store) (self : ref) (x : BasePeriodState)
    (o : gmap string FieldVal) :
  store !! self = Some x ->
  constructed x ->
  (forall k, is_Some (o !! k) -> k ∈ init_params (type_ x)) ->
  update self o store
  = (Return (fresh (dom store)),
     <[fresh (dom store) :=
         {| type_ := type_ x;
            __dict__ :=
              (fun p => ("_" +:+ p,
                         default FNone (match o !! p with
                                        | Some v => Some v
                                        | None => field x p
                                        end))) <$> init_params (type_ x) |}]> store).
Proof.
  intros Hself [Hnd Hkeys] Ho.
  set (data := o ∪ copied_from (__dict__ x) ∅).
  assert (Hdata : forall k, data !! k =
            match o !! k with Some v => Some v | None => field x k end).
  { intros k. unfold data. rewrite lookup_union.
    rewrite (copied_from_lookup _ _ _ k Hnd Hkeys), lookup_empty.
    unfold field. destruct (o !! k), (items_get (__dict__ x) ("_" +:+ k)); reflexivity. }
  assert (Hdom : forall k, is_Some (data !! k) -> k ∈ init_params (type_ x)).
  { intros k. rewrite Hdata. destruct (o !! k) eqn:Hok; [intros _; apply Ho; eauto|].
    intros Hf. destruct (decide (k ∈ init_params (type_ x))) as [|Hnin]; [done|].
    unfold field in Hf. rewrite (items_get_absent _ _ _ Hkeys Hnin) in Hf.
    by destruct Hf. }
  assert (Hlist :
            (fun p => ("_" +:+ p, default FNone (data !! p))) <$> init_params (type_ x)
            = (fun p => ("_" +:+ p,
                         default FNone (match o !! p with
                                        | Some v => Some v
                                        | None => field x p
                                        end))) <$> init_params (type_ x)).
  { apply Forall_fmap_ext_1, Forall_forall. intros k _. rewrite Hdata. reflexivity. }
  unfold update, bind, get. rewrite Hself. fold data.
  rewrite (new_ok _ _ _ Hdom), Hlist. reflexivity.
Qed.

(** X21. The constructor and the fields fit together: a call of a state
    class with keywords that its constructor takes makes a new object,
    with a reference that the store did not hold, on which every field
    reads as the keyword given for it, or as [None] when none was given;
    a keyword that the constructor does not take raises [TypeError] and
    nothing is made. *)
Theorem new_then_field (cls : StateClass) (kwargs : gmap string FieldVal)
    (store : Store) :
  NoDup (init_params cls) ->
  ((forall k, is_Some (kwargs !! k) -> k ∈ init_params cls) ->
   exists x,
     new cls kwargs store = (Return (fresh (dom store)), <[fresh (dom store) := x]> store) /\
     store !! fresh (dom store) = None /\
     type_ x = cls /\
     constructed x /\
     forall k, k ∈ init_params cls -> field x k = Some (default FNone (kwargs !! k))) /\
  (forall k, is_Some (kwargs !! k) -> k ∉ init_params cls ->
             new cls kwargs store
             = (Raise (TypeError "__init__() got an unexpected keyword argument"),
                store)).
Proof.
  intros Hnd. split.
  - intros Hkeys. eexists. split; [apply (new_ok _ _ _ Hkeys)|].
    split; [apply not_elem_of_dom, is_fresh|]. split; [reflexivity|]. split.
    + split; [exact Hnd|]. cbn [type_ __dict__].
      rewrite <- list_fmap_compose. reflexivity.
    + intros k Hk. unfold field. cbn [__dict__].
      rewrite items_get_fmap, decide_True by exact Hk. reflexivity.
  - intros k Hk Hnin. apply (new_unexpected _ _ _ k Hk Hnin).
Qed.

(** X22. The property [participants] of a new [BasePeriodState]: made with
    a set of participants, it returns that set; made with none, or with
    [None], it raises [ValueError]. *)
Theorem participants_of_new_state (store : Store) (kwargs : gmap string FieldVal) :
  (forall k, is_Some (kwargs !! k) -> k = "participants") ->
  (self <- new BasePeriodState_class kwargs ;; participants self) store
  = (match kwargs !! "participants" with
     | Some (FFrozenSet xs) => Return (FFrozenSet xs)
     | Some (FVal v) => Return (FVal v)
     | Some FNone | None => Raise (ValueError "'participants' field is None")
     end,
     <[fresh (dom store) :=
         {| type_ := BasePeriodState_class;
            __dict__ := [("_participants", default FNone (kwargs !! "participants"))] |}]>
       store).
Proof.
  intros Hkeys. unfold bind at 1.
  rewrite new_ok by (intros k Hk; rewrite (Hkeys k Hk); compute_done).
  unfold participants, bind, get, ret, raise. rewrite lookup_insert_eq.
  change (init_params BasePeriodState_class) with ["participants"].
  cbn [fmap list_fmap]. unfold field. cbn [__dict__].
  change ("_" +:+ "participants") with "_participants".
  cbn [items_get]. rewrite String.eqb_refl.
  destruct (kwargs !! "participants") as [[| |]|]; reflexivity.
Qed.

(** X23. An override under a name that no parameter of the constructor has
    makes [update] raise [TypeError]; no object is made and the store is as
    it was. *)
Theorem update_rejects_unknown_override
    (store : Store) (self : ref) (x : BasePeriodState)
    (o : gmap string FieldVal) (k : string) :
  store !! self = Some x ->
  is_Some (o !! k) ->
  k ∉ init_params (type_ x) ->
  update self o store
  = (Raise (TypeError "__init__() got an unexpected keyword argument"), store).
Proof.
  intros Hself [v Hk] Hnin. unfold update, bind, get. rewrite Hself.
  apply (new_unexpected _ _ _ k); [|exact Hnin].
  rewrite lookup_union, Hk. destruct (copied_from (__dict__ x) ∅ !! k); eauto.
Qed.

(** X24. With no override, [update] copies: the new object has the class
    and the attributes of the original, under another reference. *)
Theorem update_without_overrides_copies
    (store : Store) (self : ref) (x : BasePeriodState) :
  store !! self = Some x ->
  constructed x ->
  update self ∅ store = (Return (fresh (dom store)), <[fresh (dom store) := x]> store) /\
  fresh (dom store) <> self.
Proof.
  intros Hself Hcons. split.
  - rewrite (update_result store self x ∅ Hself Hcons)
      by (intros k [v Hk]; rewrite lookup_empty in Hk; discriminate).
    assert (Hx : {| type_ := type_ x;
                    __dict__ :=
                      (fun p => ("_" +:+ p,
                                 default FNone (match (∅ : gmap string FieldVal) !! p with
                                                | Some v => Some v
                                                | None => field x p
                                                end))) <$> init_params (type_ x) |}
                 = x).
    { destruct x as [cls dict]. destruct Hcons as [Hnd Hkeys].
      unfold field. cbn [type_ __dict__] in *. f_equal. symmetry.
      rewrite (items_as_fields _ dict Hnd Hkeys) at 1.
      apply Forall_fmap_ext_1, Forall_forall. intros k _.
      rewrite lookup_empty. reflexivity. }
    rewrite Hx. reflexivity.
  - intros Heq. pose proof (is_fresh (dom store)) as Hfresh.
    rewrite Heq in Hfresh. apply Hfresh, elem_of_dom. eauto.
Qed.

(** X25. Updates compose, the later override winning: updating the result
    of an update makes a new object with the attributes that one update
    with both sets of overrides makes; the original and the intermediate
    object stay in the store. *)
Theorem update_twice
    (store : Store) (self : ref) (x : BasePeriodState)
    (o1 o2 : gmap string FieldVal) :
  store !! self = Some x ->
  constructed x ->
  (forall k, is_Some (o1 !! k) -> k ∈ init_params (type_ x)) ->
  (forall k, is_Some (o2 !! k) -> k ∈ init_params (type_ x)) ->
  let store1 := (update self o1 store).2 in
  exists y,
    update self (o2 ∪ o1) store
    = (Return (fresh (dom store)), <[fresh (dom store) := y]> store) /\
    (r1 <- update self o1 ;; update r1 o2) store
    = (Return (fresh (dom store1)), <[fresh (dom store1) := y]> store1) /\
    store1 !! self = Some x /\
    is_Some (store1 !! fresh (dom store)) /\
    store1 !! fresh (dom store1) = None.
Proof.
  intros Hself Hcons Ho1 Ho2 store1.
  pose proof (update_result store self x o1 Hself Hcons Ho1) as H1.
  assert (Hr1self : fresh (dom store) <> self).
  { intros Heq. pose proof (is_fresh (dom store)) as Hfresh.
    rewrite Heq in Hfresh. apply Hfresh, elem_of_dom. eauto. }
  remember {| type_ := type_ x;
              __dict__ := (fun p => ("_" +:+ p,
                             default FNone (match o1 !! p with
                                            | Some v => Some v
                                            | None => field x p
                                            end))) <$> init_params (type_ x) |}
    as x1 eqn:Hx1.
  assert (Hstore1 : store1 = <[fresh (dom store) := x1]> store)
    by (unfold store1; rewrite H1; reflexivity).
  assert (Htype1 : type_ x1 = type_ x) by (rewrite Hx1; reflexivity).
  assert (Hcons1 : constructed x1).
  { destruct Hcons as [Hnd Hkeys]. rewrite Hx1. split; [exact Hnd|].
    cbn [type_ __dict__]. rewrite <- list_fmap_compose. reflexivity. }
  assert (Hfield1 : forall k, k ∈ init_params (type_ x) ->
            field x1 k = Some (default FNone (match o1 !! k with
                                              | Some v => Some v
                                              | None => field x k
                                              end))).
  { intros k Hk. rewrite Hx1. unfold field at 1. cbn [__dict__].
    rewrite items_get_fmap, decide_True by exact Hk. reflexivity. }
  assert (Hr1 : store1 !! fresh (dom store) = Some x1)
    by (rewrite Hstore1; apply lookup_insert_eq).
  assert (Ho2' : forall k, is_Some (o2 !! k) -> k ∈ init_params (type_ x1))
    by (rewrite Htype1; exact Ho2).
  pose proof (update_result store1 (fresh (dom store)) x1 o2 Hr1 Hcons1 Ho2') as H2.
  assert (Ho12 : forall k, is_Some ((o2 ∪ o1) !! k) -> k ∈ init_params (type_ x)).
  { intros k. rewrite lookup_union. destruct (o2 !! k) eqn:E2.
    - intros _. apply Ho2. eauto.
    - destruct (o1 !! k) eqn:E1; [intros _; apply Ho1; eauto|by intros [? ?]]. }
  pose proof (update_result store self x (o2 ∪ o1) Hself Hcons Ho12) as H12.
  assert (Hsame :
            (fun p => ("_" +:+ p,
                       default FNone (match o2 !! p with
                                      | Some v => Some v
                                      | None => field x1 p
                                      end))) <$> init_params (type_ x1)
            = (fun p => ("_" +:+ p,
                         default FNone (match (o2 ∪ o1) !! p with
                                        | Some v => Some v
                                        | None => field x p
                                        end))) <$> init_params (type_ x)).
  { rewrite Htype1. apply Forall_fmap_ext_1, Forall_forall. intros k Hk.
    f_equal. rewrite lookup_union.
    destruct (o2 !! k) as [v2|]; [destruct (o1 !! k); reflexivity|].
    rewrite (Hfield1 k Hk).
    destruct (o1 !! k) as [v1|] eqn:E1; cbn; [reflexivity|].
    destruct Hcons as [Hnd Hkeys].
    destruct (items_get_present _ _ _ Hkeys Hk) as [v Hv].
    unfold field. rewrite Hv. reflexivity. }
  eexists. split; [exact H12|]. split; [|split; [|split]].
  - unfold bind. rewrite H1. cbn [snd]. rewrite <- Hstore1.
    rewrite H2, Hsame, Htype1. reflexivity.
  - rewrite Hstore1, lookup_insert_ne by exact Hr1self. exact Hself.
  - rewrite Hr1. eauto.
  - apply not_elem_of_dom, is_fresh.
Qed.

End PeriodStateFurther.

Lemma new_then_field_witness :
  (exists x,
      BasePeriodState.new BasePeriodState_class
        {[ "participants" := FFrozenSet {[ "alice" ]} ]} Examples.one_state
      = (Return (fresh (dom Examples.one_state)),
         <[fresh (dom Examples.one_state) := x]> Examples.one_state) /\
      BasePeriodState.field x "participants" = Some (FFrozenSet {[ "alice" ]})) /\
  BasePeriodState.new BasePeriodState_class
    {[ "round_number" := FVal (VInt 1) ]} Examples.one_state
  = (Raise (TypeError "__init__() got an unexpected keyword argument"),
     Examples.one_state).
Proof.
  destruct (new_then_field BasePeriodState_class
              {[ "participants" := FFrozenSet {[ "alice" ]} ]} Examples.one_state)
    as [Hok _]; [compute_done|].
  destruct (new_then_field BasePeriodState_class
              {[ "round_number" := FVal (VInt 1) ]} Examples.one_state)
    as [_ Hbad]; [compute_done|].
  split.
  - destruct Hok as (x & Hnew & _ & _ & _ & Hfield).
    { intros k [v Hk]. apply lookup_singleton_Some in Hk as [<- _]. compute_done. }
    exists x. split; [exact Hnew|]. apply (Hfield "participants"). compute_done.
  - apply (Hbad "round_number"); [rewrite lookup_singleton_eq; eauto|compute_done].
Defined.

Lemma participants_of_new_state_witness :
  ((self <- BasePeriodState.new BasePeriodState_class
              {[ "participants" := FFrozenSet {[ "alice" ]} ]} ;;
    BasePeriodState.participants self) ∅).1
  = Return (FFrozenSet {[ "alice" ]}) /\
  ((self <- BasePeriodState.new BasePeriodState_class ∅ ;;
    BasePeriodState.participants self) ∅).1
  = Raise (ValueError "'participants' field is None").
Proof.
  split.
  - rewrite (participants_of_new_state ∅ {[ "participants" := FFrozenSet {[ "alice" ]} ]}).
    + reflexivity.
    + intros k [v Hk]. apply lookup_singleton_Some in Hk as [<- _]. reflexivity.
  - rewrite (participants_of_new_state ∅ ∅).
    + reflexivity.
    + intros k [v Hk]. rewrite lookup_empty in Hk. discriminate.
Defined.

Lemma update_rejects_unknown_override_witness :
  BasePeriodState.update 1%positive {[ "round_number" := FVal (VInt 1) ]}
    Examples.one_state
  = (Raise (TypeError "__init__() got an unexpected keyword argument"),
     Examples.one_state).
Proof.
  apply (update_rejects_unknown_override Examples.one_state 1%positive
           {| type_ := BasePeriodState_class;
              __dict__ := [("_participants", FFrozenSet {[ "alice"; "bob" ]})] |}
           _ "round_number");
    [reflexivity|rewrite lookup_singleton_eq; eauto|compute_done].
Defined.

Lemma update_without_overrides_copies_witness :
  BasePeriodState.update 1%positive ∅ Examples.one_state
  = (Return (fresh (dom Examples.one_state)),
     <[fresh (dom Examples.one_state) :=
         {| type_ := BasePeriodState_class;
            __dict__ := [("_participants", FFrozenSet {[ "alice"; "bob" ]})] |}]>
       Examples.one_state).
Proof.
  apply (update_without_overrides_copies Examples.one_state 1%positive);
    [reflexivity|split; [compute_done|reflexivity]].
Defined.

Lemma update_twice_witness :
  let o1 : gmap string FieldVal := {[ "participants" := FFrozenSet {[ "carol" ]} ]} in
  let o2 : gmap string FieldVal := {[ "participants" := FFrozenSet {[ "dave" ]} ]} in
  exists y,
    BasePeriodState.update 1%positive (o2 ∪ o1) Examples.one_state
    = (Return (fresh (dom Examples.one_state)),
       <[fresh (dom Examples.one_state) := y]> Examples.one_state) /\
    ((r1 <- BasePeriodState.update 1%positive o1 ;; BasePeriodState.update r1 o2)
       Examples.one_state).1
    = Return (fresh (dom (BasePeriodState.update 1%positive o1 Examples.one_state).2)).
Proof.
  intros o1 o2.
  destruct (update_twice Examples.one_state 1%positive
              {| type_ := BasePeriodState_class;
                 __dict__ := [("_participants", FFrozenSet {[ "alice"; "bob" ]})] |}
              o1 o2) as (y & H12 & Hseq & _).
  - reflexivity.
  - split; [compute_done|reflexivity].
  - intros k [v Hk]. apply lookup_singleton_Some in Hk as [<- _]. compute_done.
  - intros k [v Hk]. apply lookup_singleton_Some in Hk as [<- _]. compute_done.
  - exists y. split; [exact H12|]. rewrite Hseq. reflexivity.
Defined.

(** ** ConsensusParams.from_json *)

(** X26. [from_json] builds the parameters exactly from a dictionary that
    binds [max_participants] to an integer that is not negative, zero
    included although the text of the error says greater than 0, and
    booleans included; it raises [KeyError] when the entry is missing and
    [AEAEnforceError] on a negative integer, a string or [None]; the
    parameters that it builds hold the number given. *)
Theorem ConsensusParams_from_json (obj : gmap string PyVal) :
  (obj !! "max_participants" = None ->
   ConsensusParams.from_json obj = Passed (Raise (KeyError "max_participants"))) /\
  (forall z, obj !! "max_participants" = Some (VInt z) ->
             (0 <= z ->
              ConsensusParams.from_json obj
              = Passed (Return {| _max_participants := z |})) /\
             (z < 0 ->
              ConsensusParams.from_json obj
              = AEAEnforceError "max_participants must be an integer greater than 0.")) /\
  (forall b, obj !! "max_participants" = Some (VBool b) ->
             ConsensusParams.from_json obj
             = Passed (Return {| _max_participants := Z.b2z b |})) /\
  (forall v, obj !! "max_participants" = Some v ->
             (v = VNone \/ exists s, v = VStr s) ->
             ConsensusParams.from_json obj
             = AEAEnforceError "max_participants must be an integer greater than 0.") /\
  (forall c, ConsensusParams.from_json obj = Passed (Return c) ->
             0 <= ConsensusParams.max_participants c).
Proof.
  unfold ConsensusParams.from_json.
  split; [intros ->; reflexivity|]. split; [|split; [|split]].
  - intros z ->. split; intros Hz.
    + destruct (Z.leb_spec 0 z); [reflexivity|lia].
    + destruct (Z.leb_spec 0 z); [lia|reflexivity].
  - intros b ->. destruct b; reflexivity.
  - intros v -> [->|[s ->]]; reflexivity.
  - intros c. destruct (obj !! "max_participants") as [[|b|z|s]|]; try discriminate.
    + destruct b; cbn; intros [= <-]; cbn; lia.
    + destruct (Z.leb_spec 0 z); [|discriminate]. intros [= <-]. exact H.
Qed.

Lemma ConsensusParams_from_json_witness :
  ConsensusParams.from_json {[ "max_participants" := VInt 0 ]}
  = Passed (Return {| _max_participants := 0 |}) /\
  ConsensusParams.from_json {[ "max_participants" := VInt (-1) ]}
  = AEAEnforceError "max_participants must be an integer greater than 0." /\
  ConsensusParams.from_json {[ "max_participants" := VBool true ]}
  = Passed (Return {| _max_participants := 1 |}) /\
  ConsensusParams.from_json {[ "participants" := VInt 4 ]}
  = Passed (Raise (KeyError "max_participants")).
Proof.
  split; [|split; [|split]].
  - destruct (ConsensusParams_from_json {[ "max_participants" := VInt 0 ]})
      as (_ & Hint & _).
    destruct (Hint 0 eq_refl) as [Hok _]. apply Hok. lia.
  - destruct (ConsensusParams_from_json {[ "max_participants" := VInt (-1) ]})
      as (_ & Hint & _).
    destruct (Hint (-1) eq_refl) as [_ Hneg]. apply Hneg. lia.
  - destruct (ConsensusParams_from_json {[ "max_participants" := VBool true ]})
      as (_ & _ & Hbool & _).
    apply (Hbool true eq_refl).
  - destruct (ConsensusParams_from_json {[ "participants" := VInt 4 ]})
      as (Hmissing & _).
    apply Hmissing. reflexivity.
Defined.
